(** * FlexiBlur: region blur and batch dispatch

    A shallow embedding of [FlexiBlur.py] (and of the one function of
    [gui.py] that prepares its settings).  Python objects that are shared
    and updated in place (numpy arrays) live in an explicit store; Python
    exceptions are an explicit outcome; the log is part of the state.

    OpenCV, PIL and moviepy are libraries the program calls.  Their control
    behaviour (what raises, what is returned in place of a result) follows
    their documentation; the floating-point weights of the two Gaussian
    filters stay parameters of the development. *)

From stdpp Require Import base option list gmap strings.
From Stdlib Require Import Ascii ZArith QArith Qround Lia Lqa.

Close Scope Q_scope.

(** ** Python values, exceptions, the log *)

Inductive pyval : Type :=
  | PNone
  | PInt (n : Z)
  | PFloat (q : Q)
  | PStr (s : string).

Inductive exn : Type :=
  | KeyError (key : string)
  | TypeError (msg : string)
  | ValueError (msg : string)
  | UnboundLocalError (var : string)
  | AttributeError (msg : string)
  | OSError (msg : string)
  | cv2_error (msg : string).

Inductive outcome (A : Type) : Type :=
  | Return (a : A)
  | Raise (e : exn).
Arguments Return {A} a.
Arguments Raise {A} e.

Inductive level : Type := DEBUG | INFO | ERROR.

(** ** numpy arrays: height x width grids of B,G,R pixels, row-major *)

Abbreviation pixel := (Z * Z * Z)%type.
Abbreviation ndarray := (list (list pixel)).

(** [image.shape[0]] and [image.shape[1]]. *)
Definition shape0 (a : ndarray) : Z := Z.of_nat (length a).
Definition shape1 (a : ndarray) : Z :=
  match a with
  | [] => 0%Z
  | r :: _ => Z.of_nat (length r)
  end.

Definition rectangular (a : ndarray) : Prop :=
  Forall (fun r => Z.of_nat (length r) = shape1 a) a.

(** [l[lo:hi]] for [0 <= lo <= hi] (the only slices the program takes are
    behind the bounds check of [apply_blur]). *)
Definition slice {A} (lo hi : Z) (l : list A) : list A :=
  take (Z.to_nat (hi - lo)) (drop (Z.to_nat lo) l).

(** [image[y : y + h, x : x + w]]. *)
Definition crop (a : ndarray) (x y w h : Z) : ndarray :=
  slice x (x + w) <$> slice y (y + h) a.

(** [old[x : x + len(new)] = new] on one axis. *)
Definition splice {A} (x : nat) (new old : list A) : list A :=
  take x old ++ new ++ drop (x + length new) old.

(** The array after [image[y : y + h, x : x + w] = b], for [b] of the
    shape of the slice: the rows from [y] on get the columns from [x] on
    replaced. *)
Definition paste (a : ndarray) (x y : Z) (b : ndarray) : ndarray :=
  splice (Z.to_nat y)
    (zip_with (splice (Z.to_nat x)) b (take (length b) (drop (Z.to_nat y) a)))
    a.

Definition same_shape (a b : ndarray) : bool :=
  bool_decide (length <$> a = length <$> b).

Definition tabulate (h w : nat) (f : nat -> nat -> pixel) : ndarray :=
  (fun r => f r <$> seq 0 w) <$> seq 0 h.

Definition width_of (a : ndarray) : nat := Z.to_nat (shape1 a).

Definition pixel_at (a : ndarray) (r c : Z) : pixel :=
  match a !! Z.to_nat r with
  | Some row => default (0, 0, 0)%Z (row !! Z.to_nat c)
  | None => (0, 0, 0)%Z
  end.

(** ** moviepy clips: frames as a function of time *)

Record clip (F : Type) : Type := Clip {
  duration : Q;
  fps : Z;
  get_frame : Q -> F;
  audio : option (Q * Q)  (* the window of the source sound track *)
}.
Arguments Clip {F}.
Arguments duration {F}.
Arguments fps {F}.
Arguments get_frame {F}.
Arguments audio {F}.

Inductive file : Type :=
  | ImageFile (a : ndarray)
  | VideoFile (c : clip ndarray)
  | OtherFile.

(** ** Program state *)

Definition loc : Type := nat.

Record state : Type := State {
  heap : list ndarray;            (* the numpy arrays alive, by reference *)
  logs : list (level * string);   (* the records sent to [logging] *)
  files : gmap string file        (* the file system *)
}.

Definition M (A : Type) : Type := state -> outcome A * state.

Definition raise {A} (e : exn) : M A := fun st => (Raise e, st).

#[global] Instance M_ret : MRet M := fun A a st => (Return a, st).
#[global] Instance M_bind : MBind M := fun A B k c st =>
  match c st with
  | (Return a, st') => k a st'
  | (Raise e, st') => (Raise e, st')
  end.

(** [try: body except Exception as e: handler]. *)
Definition try_except {A} (body : M A) (handler : exn -> M A) : M A :=
  fun st =>
    match body st with
    | (Return a, st') => (Return a, st')
    | (Raise e, st') => handler e st'
    end.

Definition lift {A} (o : outcome A) : M A := fun st => (o, st).

Definition logging (lv : level) (msg : string) : M unit :=
  fun st =>
    (Return tt, State (heap st) (logs st ++ [(lv, msg)]) (files st)).

(** Reading the array behind a reference. *)
Definition deref (l : loc) : M ndarray :=
  fun st =>
    match heap st !! l with
    | Some a => (Return a, st)
    | None => (Raise (TypeError "not an array"), st)
    end.

(** A new array object (what [.copy()], a filter or a decoder returns). *)
Definition alloc (a : ndarray) : M loc :=
  fun st =>
    (Return (length (heap st)),
     State (heap st ++ [a]) (logs st) (files st)).

(** [image[y : y + h, x : x + w] = b]: numpy writes through the reference,
    and raises when [b] has not the shape of the slice. *)
Definition setitem (l : loc) (x y w h : Z) (b : ndarray) : M unit :=
  fun st =>
    match heap st !! l with
    | Some a =>
        if same_shape (crop a x y w h) b
        then (Return tt,
              State (<[l := paste a x y b]> (heap st)) (logs st) (files st))
        else (Raise (ValueError "could not broadcast input array"), st)
    | None => (Raise (TypeError "not an array"), st)
    end.

(** [custom_settings[key]]. *)
Definition getitem (d : gmap string pyval) (key : string) : outcome pyval :=
  match d !! key with
  | Some v => Return v
  | None => Raise (KeyError key)
  end.

(** ** OpenCV and PIL filters *)

(** [cv2.borderInterpolate] for [BORDER_REFLECT_101], the default border of
    the filters: [gfedcb|abcdefgh|gfedcba]. *)
Fixpoint reflect101_loop (fuel : nat) (p len : Z) : Z :=
  match fuel with
  | O => 0%Z
  | S fuel' =>
      if ((0 <=? p) && (p <? len))%Z then p
      else if (p <? 0)%Z then reflect101_loop fuel' (- p)%Z len
      else reflect101_loop fuel' (2 * len - 2 - p)%Z len
  end.

Definition borderInterpolate (p len : Z) : Z :=
  if (len =? 1)%Z then 0%Z
  else reflect101_loop (S (Z.to_nat (Z.abs p))) p len.

(** [saturate_cast<uchar>]. *)
Definition saturate (v : Z) : Z := Z.max 0 (Z.min 255 v).

Definition kernel : Type := list (list Z).

(** [np.zeros((rows, cols))]. *)
Definition np_zeros (rows cols : nat) : kernel :=
  replicate rows (replicate cols 0%Z).
(** [np.ones(n)]. *)
Definition np_ones (n : nat) : list Z := replicate n 1%Z.
(** [kernel[i, :] = v]. *)
Definition set_kernel_row (i : nat) (v : list Z) (k : kernel) : kernel :=
  <[i := v]> k.
(** [kernel[:, j] = v]. *)
Definition set_kernel_col (j : nat) (v : list Z) (k : kernel) : kernel :=
  zip_with (fun row x => <[j := x]> row) k v.

Definition chan (i : nat) (p : pixel) : Z :=
  match i, p with
  | 0, (b, _, _) => b
  | 1, (_, g, _) => g
  | _, (_, _, r) => r
  end.

Definition sumZ (l : list Z) : Z := foldr Z.add 0%Z l.

(** [cv2.filter2D(src, -1, kernel)]: correlation with the kernel anchored
    at its centre, borders reflected, the result saturated to 8 bits.  The
    weights the program builds are the floats 0.0 and 1.0, on which the
    arithmetic is exact. *)
Definition filter2D_chan (src : ndarray) (k : kernel) (r c : nat) (ch : nat) : Z :=
  let kh := length k in
  let kw := length (default [] (head k)) in
  let ay := Z.of_nat (kh / 2) in
  let ax := Z.of_nat (kw / 2) in
  saturate (sumZ (
    flat_map (fun '(i, krow) =>
      map (fun '(j, wt) =>
        (wt * chan ch (pixel_at src
           (borderInterpolate (Z.of_nat r + Z.of_nat i - ay) (shape0 src))
           (borderInterpolate (Z.of_nat c + Z.of_nat j - ax) (shape1 src))))%Z)
        (imap pair krow))
      (imap pair k))).

(** OpenCV refuses an array without rows or without columns. *)
Definition is_empty (a : ndarray) : bool :=
  ((shape0 a =? 0) || (shape1 a =? 0))%Z.

Definition filter2D (src : ndarray) (k : kernel) : outcome ndarray :=
  if is_empty src then Raise (cv2_error "!_src.empty()")
  else
    Return (tabulate (length src) (width_of src)
      (fun r c => (filter2D_chan src k r c 0,
                   filter2D_chan src k r c 1,
                   filter2D_chan src k r c 2))).

(** [cv2.cvtColor] between BGR and RGB swaps the outer channels. *)
Definition swap_channels (p : pixel) : pixel :=
  let '(c0, c1, c2) := p in (c2, c1, c0).
Definition cvtColor_swap (a : ndarray) : ndarray :=
  (fun row : list pixel => swap_channels <$> row) <$> a.
Definition cvtColor (a : ndarray) : outcome ndarray :=
  if is_empty a then Raise (cv2_error "!_src.empty()")
  else Return (cvtColor_swap a).

(** The kernel size [cv2.GaussianBlur] accepts: positive and odd, or not
    positive with a positive sigma to derive it from. *)
Definition Qlt_bool (a b : Q) : bool := negb (Qle_bool b a).

Definition ksize_ok (k : Z) (sigma : Q) : bool :=
  ((0 <? k)%Z && Z.odd k) || ((k <=? 0)%Z && Qlt_bool 0 sigma).

Definition as_int (v : pyval) : outcome Z :=
  match v with
  | PInt n => Return n
  | _ => Raise (TypeError "an integer is required")
  end.

Definition as_number (v : pyval) : outcome Q :=
  match v with
  | PInt n => Return (inject_Z n)
  | PFloat q => Return q
  | _ => Raise (TypeError "a number is required")
  end.

(** ** The program *)

Definition roi_t : Type := Z * Z * Z * Z.

Section FlexiBlur.

(** The weights of [cv2.GaussianBlur] and of PIL's [GaussianBlur] are
    floating point; the value they give the pixel at a row and column is
    left open.  Arguments: source, kernel side (resp. radius), sigma. *)
Variable gauss_px : ndarray -> Z -> Q -> nat -> nat -> pixel.
Variable pil_px : ndarray -> Q -> nat -> nat -> pixel.

(** Whether a destination can be opened for writing, and whether OpenCV
    has an encoder for the extension of a path. *)
Variable writable : string -> bool.
Variable has_encoder : string -> bool.

(** [cv2.GaussianBlur(src, (ksize, ksize), sigma)]: the result has the
    shape of the source; a kernel side that is neither odd and positive
    nor derivable from sigma is rejected. *)
Definition GaussianBlur (src : ndarray) (ksize : Z) (sigma : Q) : outcome ndarray :=
  if is_empty src then Raise (cv2_error "!_src.empty()")
  else if ksize_ok ksize sigma
  then Return (tabulate (length src) (width_of src) (gauss_px src ksize sigma))
  else Raise (cv2_error "ksize.width > 0 && ksize.width % 2 == 1").

(** [Image.fromarray(..).filter(ImageFilter.GaussianBlur(radius))]
    followed by [np.array]. *)
Definition pil_GaussianBlur (src : ndarray) (radius : Q) : outcome ndarray :=
  Return (tabulate (length src) (width_of src) (pil_px src radius)).

(** The condition of the [if] at lines 58-65. *)
Definition roi_out_of_bounds (image : ndarray) (roi : roi_t) : bool :=
  let '(x, y, w, h) := roi in
  ((x <? 0) || (y <? 0) || (w <=? 0) || (h <=? 0)
   || (shape1 image <? x + w) || (shape0 image <? y + h))%Z.

(** The [if]/[elif] chain on [blur_mode]: [Return None] is the [else]
    branch, which logs and leaves the function with [None]. *)
Definition blur_by_mode (blur_mode : string) (custom_settings : gmap string pyval)
    (roi_section : ndarray) : M (option ndarray) :=
  if String.eqb blur_mode "Heavy" then
    b ← lift (GaussianBlur roi_section 51 0); mret (Some b)
  else if String.eqb blur_mode "Slight" then
    b ← lift (GaussianBlur roi_section 15 0); mret (Some b)
  else if String.eqb blur_mode "Custom" then
    ksize ← lift (getitem custom_settings "ksize");
    sigma ← lift (getitem custom_settings "sigma");
    k ← lift (as_int ksize);
    s ← lift (as_number sigma);
    b ← lift (GaussianBlur roi_section k s); mret (Some b)
  else if String.eqb blur_mode "Motion" then
    direction ← lift (getitem custom_settings "direction");
    let kernel :=
      match direction with
      | PStr d =>
          if String.eqb d "horizontal" then
            Some (set_kernel_row 0 (np_ones 15) (np_zeros 1 15))
          else if String.eqb d "vertical" then
            Some (set_kernel_col 0 (np_ones 15) (np_zeros 15 1))
          else None
      | _ => None
      end in
    match kernel with
    | Some k => b ← lift (filter2D roi_section k); mret (Some b)
    | None => raise (UnboundLocalError "kernel")
    end
  else if String.eqb blur_mode "Radial" then
    angle ← lift (getitem custom_settings "angle");
    rgb ← lift (cvtColor roi_section);
    radius ← lift (as_number angle);
    b ← lift (pil_GaussianBlur rgb radius);
    bgr ← lift (cvtColor b);
    mret (Some bgr)
  else
    logging ERROR ("Unknown blur mode: " +:+ blur_mode);; mret None.

(** The body of [apply_blur], lines 50-112. *)
Definition apply_blur_body (image : option loc) (roi : option roi_t)
    (blur_mode : string) (custom_settings : gmap string pyval) : M (option loc) :=
  logging DEBUG ("Applying " +:+ blur_mode +:+ " blur to ROI");;
  match image with
  | None => logging ERROR "Input image is empty";; mret None
  | Some im =>
      a ← deref im;
      let blur_and_update (roi_section : ndarray) : M (option loc) :=
        try_except
          (blurred ← blur_by_mode blur_mode custom_settings roi_section;
           match blurred with
           | None => mret None
           | Some blurred_roi =>
               match roi with
               | Some (x, y, w, h) =>
                   setitem im x y w h blurred_roi;; mret (Some im)
               | None => new ← alloc blurred_roi; mret (Some new)
               end
           end)
          (fun e => logging ERROR "Error applying blur";; mret None) in
      match roi with
      | Some (x, y, w, h) =>
          if roi_out_of_bounds a (x, y, w, h)
          then logging ERROR "Invalid ROI specified";; mret (Some im)
          else blur_and_update (crop a x y w h)
      | None => blur_and_update a
      end
  end.

(** The decorator [handle_exceptions]: what the call returns, or [None]
    after an exception.  [surplus] are positional arguments passed beyond
    the parameters the decorated function declares: the wrapper forwards
    all its arguments, and Python rejects the call. *)
Definition handle_exceptions {A} (func_name arg0 : string)
    (surplus : list pyval) (func : M (option A)) : M (option A) :=
  try_except
    (logging DEBUG ("Starting " +:+ func_name +:+ " for " +:+ arg0);;
     result ← match surplus with
              | [] => func
              | _ => raise (TypeError (func_name +:+ "() takes fewer positional arguments"))
              end;
     logging DEBUG ("Completed " +:+ func_name +:+ " for " +:+ arg0);;
     mret result)
    (fun e => logging ERROR ("Error processing " +:+ arg0);; mret None).

Definition apply_blur (image : option loc) (roi : option roi_t)
    (blur_mode : string) (custom_settings : gmap string pyval) : M (option loc) :=
  handle_exceptions "apply_blur" "<image>" []
    (apply_blur_body image roi blur_mode custom_settings).

(** [cv2.imread]: a new array, or [None] when the file is missing or is
    not an image. *)
Definition imread (path : string) : M (option loc) :=
  fun st =>
    match files st !! path with
    | Some (ImageFile a) =>
        (Return (Some (length (heap st))),
         State (heap st ++ [a]) (logs st) (files st))
    | _ => (Return None, st)
    end.

(** [cv2.imwrite]: raises without an encoder for the extension, returns
    [False] when the file cannot be written. *)
Definition imwrite (path : string) (img : loc) : M bool :=
  a ← deref img;
  if negb (has_encoder path) then
    raise (cv2_error "could not find a writer for the specified extension")
  else if writable path then
    fun st =>
      (Return true,
       State (heap st) (logs st) (<[path := ImageFile a]> (files st)))
  else mret false.

(** The body of [process_image], lines 120-132. *)
Definition process_image_body (path : string) (roi : option roi_t)
    (blur_mode : string) (custom_settings : gmap string pyval) : M (option string) :=
  logging INFO ("Processing image: " +:+ path);;
  image ← imread path;
  processed_image ← apply_blur image roi blur_mode custom_settings;
  match processed_image with
  | None => logging ERROR ("Processing failed for image: " +:+ path);; mret None
  | Some out =>
      let output_path := path in
      imwrite output_path out;;
      mret (Some output_path)
  end.

Definition process_image (path : string) (roi : option roi_t)
    (blur_mode : string) (custom_settings : gmap string pyval)
    (surplus : list pyval) : M (option string) :=
  handle_exceptions "process_image" path surplus
    (process_image_body path roi blur_mode custom_settings).

(** [blur_region], the per-frame function of [process_video]: the frame
    is copied, so [apply_blur] works on an array nothing else refers to.
    The log records of the per-frame calls are not kept. *)
Definition blur_region (roi : option roi_t) (blur_mode : string)
    (custom_settings : gmap string pyval) (frame : ndarray) : option ndarray :=
  match apply_blur (Some 0) roi blur_mode custom_settings (State [frame] [] ∅) with
  | (Return (Some out), st) => heap st !! out
  | _ => None
  end.

(** [VideoFileClip(path)]. *)
Definition VideoFileClip (path : string) : M (clip ndarray) :=
  fun st =>
    match files st !! path with
    | Some (VideoFile c) => (Return c, st)
    | _ => (Raise (OSError "MoviePy error: the file could not be found"), st)
    end.

(** The window [Clip.subclip(t_start, t_end)] selects: a negative time
    counts from the end, a start beyond the end is rejected. *)
Definition subclip_window (dur t_start : Q) (t_end : option Q) : outcome (Q * Q) :=
  let ts := if Qlt_bool t_start 0 then (dur + t_start)%Q else t_start in
  if Qlt_bool dur ts
  then Raise (ValueError "t_start should be smaller than the clip's duration")
  else
    let te := match t_end with
              | None => dur
              | Some e => if Qlt_bool e 0 then (dur + e)%Q else e
              end in
    Return (ts, te).

Definition audio_subclip (a : Q * Q) (t_start : Q) (t_end : option Q) : outcome (Q * Q) :=
  match subclip_window (snd a - fst a)%Q t_start t_end with
  | Return (ts, te) => Return ((fst a + ts)%Q, (fst a + te)%Q)
  | Raise e => Raise e
  end.

(** [clip.subclip(t_start, t_end)]: the frame at [t] is the source frame
    at [t + t_start]; the duration is [t_end - t_start]. *)
Definition subclip {F} (c : clip F) (t_start : Q) (t_end : option Q) : outcome (clip F) :=
  match subclip_window (duration c) t_start t_end with
  | Return (ts, te) =>
      Return (Clip (te - ts)%Q (fps c) (fun t => get_frame c (t + ts)%Q)
                (match audio c with
                 | Some a => Some ((fst a + ts)%Q, (fst a + te)%Q)
                 | None => None
                 end))
  | Raise e => Raise e
  end.

(** [clip.fl_image(f)]: every frame goes through [f].  moviepy asks the
    new clip for its first frame at once to learn the frame size, which
    fails on a [None]. *)
Definition fl_image (f : ndarray -> option ndarray) (c : clip ndarray)
    : outcome (clip (option ndarray)) :=
  match f (get_frame c 0%Q) with
  | Some _ => Return (Clip (duration c) (fps c) (fun t => f (get_frame c t)) (audio c))
  | None => Raise (AttributeError "'NoneType' object has no attribute 'shape'")
  end.

Definition set_audio {F} (c : clip F) (a : Q * Q) : clip F :=
  Clip (duration c) (fps c) (get_frame c) (Some a).

(** The times of the frames an encoder asks for: [0, 1/fps, 2/fps, ...]
    below the duration. *)
Definition frame_times {F} (c : clip F) : list Q :=
  (fun k => (inject_Z (Z.of_nat k) / inject_Z (fps c))%Q)
    <$> seq 0 (Z.to_nat (Qceiling (duration c * inject_Z (fps c))%Q)).

(** [clip.write_videofile(path, ...)]: raises when the destination cannot
    be written or a frame is not an array. *)
Definition write_videofile (c : clip (option ndarray)) (path : string) : M unit :=
  fun st =>
    if writable path && forallb (fun t => bool_decide (is_Some (get_frame c t))) (frame_times c)
    then (Return tt,
          State (heap st) (logs st)
            (<[path := VideoFile (Clip (duration c) (fps c)
                                    (fun t => default [] (get_frame c t)) (audio c))]>
               (files st)))
    else (Raise (OSError "the output file could not be written"), st).

(** [os.path.basename] and the configured output directory. *)
Fixpoint basename_from (acc s : string) : string :=
  match s with
  | EmptyString => acc
  | String c rest =>
      if Ascii.eqb c "/"%char then basename_from "" rest
      else basename_from (acc +:+ String c "") rest
  end.
Definition basename (path : string) : string := basename_from "" path.

Definition output_directory : string := "output/".

(** The truth value of a Python float. *)
Definition truthy_time (t : Q) : bool := negb (Qeq_bool t 0).

(** Lines 159-162: the whole clip through the filter, or the window cut
    out first. *)
Definition window_clip (f : ndarray -> option ndarray) (c : clip ndarray)
    (start_time end_time : Q) : outcome (clip (option ndarray)) :=
  if Qeq_bool start_time 0 && Qeq_bool end_time (duration c)
  then fl_image f c
  else
    match subclip c start_time (Some end_time) with
    | Return sub => fl_image f sub
    | Raise e => Raise e
    end.

(** The body of [process_video], lines 140-183. *)
Definition process_video_body (path : string) (roi : option roi_t)
    (blur_mode : string) (custom_settings : gmap string pyval)
    (start_time : Q) (end_time : option Q) : M (option string) :=
  logging INFO ("Processing video: " +:+ path);;
  clip ← VideoFileClip path;
  let end_time := match end_time with None => duration clip | Some e => e end in
  logging DEBUG "Clip duration, start_time, end_time";;
  blurred_clip ← lift (window_clip (blur_region roi blur_mode custom_settings)
                         clip start_time end_time);
  let output_path := output_directory +:+ basename path in
  blurred_clip ←
    match audio clip with
    | Some a =>
        au ← (if truthy_time end_time
              then lift (audio_subclip a start_time (Some end_time))
              else mret a);
        mret (set_audio blurred_clip au)
    | None => mret blurred_clip
    end;
  logging DEBUG ("Writing video file to: " +:+ output_path);;
  try_except
    (write_videofile blurred_clip output_path)
    (fun e => logging ERROR "Error writing video file");;
  logging INFO ("Processed video saved to: " +:+ output_path);;
  mret (Some output_path).

Definition process_video (path : string) (roi : option roi_t)
    (blur_mode : string) (custom_settings : gmap string pyval)
    (start_time : Q) (end_time : option Q) (surplus : list pyval) : M (option string) :=
  handle_exceptions "process_video" path surplus
    (process_video_body path roi blur_mode custom_settings start_time end_time).

(** [str.lower] on ASCII letters and [str.endswith] with a tuple. *)
Definition lower_ascii (c : Ascii.ascii) : Ascii.ascii :=
  let n := Ascii.nat_of_ascii c in
  if (65 <=? n)%nat && (n <=? 90)%nat then Ascii.ascii_of_nat (n + 32) else c.
Fixpoint lower (s : string) : string :=
  match s with
  | EmptyString => EmptyString
  | String c rest => String (lower_ascii c) (lower rest)
  end.
Definition endswith1 (s suffix : string) : bool :=
  let n := String.length s in
  let m := String.length suffix in
  (m <=? n)%nat && String.eqb (String.substring (n - m) m s) suffix.
Definition endswith (s : string) (suffixes : list string) : bool :=
  existsb (endswith1 s) suffixes.

Definition is_image_path (path : string) : bool :=
  endswith (lower path) [".jpg"; ".jpeg"; ".png"].

(** The truth value of a task's result: [None] and the empty string are
    false. *)
Definition truthy (result : option string) : bool :=
  match result with
  | Some s => negb (String.eqb s "")
  | None => false
  end.

Definition time_arg (t : option Q) : pyval :=
  match t with Some q => PFloat q | None => PNone end.

(** The order in which [as_completed] hands the futures back.  The
    workers are taken to run their tasks one at a time in that order. *)
Variable as_completed : forall A : Type, list A -> list A.

(** The loop of lines 213-218. *)
Fixpoint collect (futures : list (M (option string))) (output_paths : list string)
    : M (list string) :=
  match futures with
  | [] => mret output_paths
  | future :: rest =>
      result ← future;
      collect rest
        (if truthy result then output_paths ++ [default "" result] else output_paths)
  end.

(** One task per path, as [executor.submit] receives it: the function
    chosen by the extension, and the same six arguments for both. *)
Definition submit (roi : option roi_t) (blur_mode : string)
    (custom_settings : gmap string pyval) (start_time : Q) (end_time : option Q)
    (path : string) : M (option string) :=
  if is_image_path path
  then process_image path roi blur_mode custom_settings
         [PFloat start_time; time_arg end_time]
  else process_video path roi blur_mode custom_settings start_time end_time [].

Definition process_media_in_parallel (media_paths : list string) (roi : option roi_t)
    (blur_mode : string) (custom_settings : gmap string pyval)
    (start_time : Q) (end_time : option Q) : M (list string) :=
  logging INFO "Starting parallel media processing";;
  let futures :=
    submit roi blur_mode custom_settings start_time end_time <$> media_paths in
  output_paths ← collect (as_completed _ futures) [];
  logging INFO "Completed parallel media processing";;
  mret output_paths.

End FlexiBlur.

(** ** [gui.py]: saving the custom settings *)

(** [FlexiBlurApp.save_custom_blur_settings], lines 322-327.  The texts of
    the entry widgets are given as what [int] and [float] make of them
    ([None]: a text they reject with [ValueError]).  The dictionary is
    updated key by key, so an exception leaves the earlier updates. *)
Definition save_custom_blur_settings
    (ksize_entry : option Z) (sigma_entry : option Q)
    (direction_entry : string) (angle_entry : option Z)
    (custom_blur_settings : gmap string pyval) : outcome unit * gmap string pyval :=
  match ksize_entry with
  | None => (Raise (ValueError "invalid literal for int()"), custom_blur_settings)
  | Some k =>
      let s1 := <["ksize" := PInt k]> custom_blur_settings in
      let s2 := if (k mod 2 =? 0)%Z then <["ksize" := PInt (k + 1)]> s1 else s1 in
      match sigma_entry with
      | None => (Raise (ValueError "could not convert string to float"), s2)
      | Some sg =>
          let s3 := <["sigma" := PFloat sg]> s2 in
          let s4 := <["direction" := PStr direction_entry]> s3 in
          match angle_entry with
          | None => (Raise (ValueError "invalid literal for int()"), s4)
          | Some a => (Return tt, <["angle" := PInt a]> s4)
          end
      end
  end.

(** ** [FlexiBlur.py]: saving the processed files *)

(** [os.path.join] of two components. *)
Definition path_join (a b : string) : string :=
  if String.prefix "/" b then b
  else if String.eqb a "" || endswith1 a "/" then a +:+ b
  else a +:+ "/" +:+ b.

(** [str.rfind] of one character: its last index, or -1. *)
Fixpoint rfind_from (c : Ascii.ascii) (s : string) (i last : Z) : Z :=
  match s with
  | EmptyString => last
  | String d rest =>
      rfind_from c rest (i + 1)%Z (if Ascii.eqb d c then i else last)
  end.
Definition rfind (c : Ascii.ascii) (s : string) : Z := rfind_from c s 0%Z (-1)%Z.

(** [os.path.splitext]: the extension starts at the last dot of the last
    component, unless only dots precede it there. *)
Fixpoint splitext_scan (p : string) (dotIndex filenameIndex count : nat)
    : string * string :=
  match count with
  | O => (p, "")
  | S count' =>
      match String.get filenameIndex p with
      | Some ch =>
          if Ascii.eqb ch "."%char
          then splitext_scan p dotIndex (S filenameIndex) count'
          else (String.substring 0 dotIndex p,
                String.substring dotIndex (String.length p - dotIndex) p)
      | None => (p, "")
      end
  end.
Definition splitext (p : string) : string * string :=
  let sepIndex := rfind "/"%char p in
  let dotIndex := rfind "."%char p in
  if (sepIndex <? dotIndex)%Z
  then splitext_scan p (Z.to_nat dotIndex) (Z.to_nat (sepIndex + 1))
         (Z.to_nat (dotIndex - (sepIndex + 1)))
  else (p, "").

(** What an f-string makes of a name the dialog returned: [None] (the
    dialog was cancelled) prints as "None". *)
Definition format_name (output_name : option string) : string :=
  match output_name with
  | Some s => s
  | None => "None"
  end.

Section Saving.

(** Whether a destination can be written, and whether a path names a
    directory.  Two spellings of one path count as two files. *)
Variable writable : string -> bool.
Variable isdir : string -> bool.

(** [shutil.copy(src, dst)]: into the directory when [dst] is one; copying
    a file onto itself, a missing source and a destination that cannot be
    written all raise an [OSError]. *)
Definition shutil_copy (src dst : string) : M string :=
  let dst := if isdir dst then path_join dst (basename src) else dst in
  fun st =>
    if String.eqb src dst
    then (Raise (OSError "are the same file"), st)
    else
      match files st !! src with
      | None => (Raise (OSError "No such file or directory"), st)
      | Some f =>
          if writable dst
          then (Return dst, State (heap st) (logs st) (<[dst := f]> (files st)))
          else (Raise (OSError "Permission denied"), st)
      end.

(** The loop of [save_processed_images], lines 227-234, over the zipped
    pairs.  A processed path that is no file is handed to
    [Image.fromarray], which rejects a string. *)
Fixpoint save_pairs (pairs : list (string * option string))
    (output_directory : string) : M unit :=
  match pairs with
  | [] => mret tt
  | (processed_path, output_name) :: rest =>
      let ext := snd (splitext processed_path) in
      let output_path :=
        path_join output_directory (format_name output_name +:+ ext) in
      isfile ← (fun st => (Return (bool_decide (is_Some (files st !! processed_path))), st));
      (if isfile : bool
       then shutil_copy processed_path output_path;; mret tt
       else raise (AttributeError "'str' object has no attribute '__array_interface__'"));;
      logging INFO ("Saved processed file to: " +:+ output_path);;
      save_pairs rest output_directory
  end.

Definition save_processed_images (processed_paths : list string)
    (output_names : list (option string)) (output_directory : string) : M unit :=
  save_pairs (zip processed_paths output_names) output_directory.

End Saving.

(** Where [save_processed_images] puts a processed file: the directory,
    the name the user gave, and the extension of the processed path. *)
Definition save_destination (output_directory : string)
    (pn : string * option string) : string :=
  path_join output_directory (format_name (snd pn) +:+ snd (splitext (fst pn))).

(** ** [gui.py]: the application *)

(** The attributes of [FlexiBlurApp] the processing depends on; the
    widgets themselves are left out. *)
Record app : Type := App {
  app_media_paths : list string;
  app_tmp_media_paths : list string;
  app_output_directory : string;
  app_roi : option roi_t;
  app_blur_mode : string;
  app_custom_blur_settings : gmap string pyval;
  app_video_blur_full : bool;
  app_start_time : Q;
  app_end_time : Q;
  app_processed_paths : option (list string);  (* unset until a batch succeeds *)
  app_start : option (Z * Z)                   (* [start_x], [start_y] *)
}.

(** What the user gets to see: message boxes, the media label, and the
    warning record of [process_media] (the processing module itself logs
    no warnings). *)
Inductive gui_event : Type :=
  | showinfo (title : string)
  | showwarning (title : string)
  | showerror (title : string)
  | logging_warning (msg : string)
  | label_image (path : string)
  | label_text (text : string).

(** The values [__init__] gives the attributes, lines 50-64. *)
Definition initial_app : app :=
  App [] [] "" None "Heavy"
    (<["ksize" := PInt 25]> (<["sigma" := PInt 5]>
       (<["direction" := PStr "horizontal"]> (<["angle" := PInt 45]> ∅))))
    true 0%Q 0%Q None None.

Definition set_roi (a : app) (r : option roi_t) : app :=
  App (app_media_paths a) (app_tmp_media_paths a) (app_output_directory a) r
    (app_blur_mode a) (app_custom_blur_settings a) (app_video_blur_full a)
    (app_start_time a) (app_end_time a) (app_processed_paths a) (app_start a).

Definition set_start (a : app) (s : option (Z * Z)) : app :=
  App (app_media_paths a) (app_tmp_media_paths a) (app_output_directory a)
    (app_roi a) (app_blur_mode a) (app_custom_blur_settings a)
    (app_video_blur_full a) (app_start_time a) (app_end_time a)
    (app_processed_paths a) s.

Definition set_processed_paths (a : app) (ps : list string) : app :=
  App (app_media_paths a) (app_tmp_media_paths a) (app_output_directory a)
    (app_roi a) (app_blur_mode a) (app_custom_blur_settings a)
    (app_video_blur_full a) (app_start_time a) (app_end_time a)
    (Some ps) (app_start a).

(** [on_button_press], lines 241-249: the corner where the drag starts. *)
Definition on_button_press (a : app) (event : Z * Z) : app :=
  set_start a (Some event).

(** [on_button_release], lines 258-269: the region runs from the start
    corner to the point of release.  Without a start corner the
    subtraction fails. *)
Definition on_button_release (a : app) (event : Z * Z) : outcome app :=
  match app_start a with
  | Some (start_x, start_y) =>
      Return (set_roi a (Some (start_x, start_y,
                               fst event - start_x, snd event - start_y)%Z))
  | None => Raise (TypeError "unsupported operand type(s) for -: 'int' and 'NoneType'")
  end.

Section Gui.

Variable gauss_px : ndarray -> Z -> Q -> nat -> nat -> pixel.
Variable pil_px : ndarray -> Q -> nat -> nat -> pixel.
Variable writable : string -> bool.
Variable has_encoder : string -> bool.
Variable as_completed : forall A : Type, list A -> list A.

(** [display_media], lines 429-442: the image, or a line of text for a
    video; [Image.open] raises on a path that holds no image. *)
Definition display_media (media_path : string) : M (list gui_event) :=
  if endswith (lower media_path) [".jpg"; ".jpeg"; ".png"] then
    fun st =>
      match files st !! media_path with
      | Some (ImageFile _) => (Return [label_image media_path], st)
      | _ => (Raise (OSError "cannot identify image file"), st)
      end
  else if endswith (lower media_path) [".mp4"; ".avi"] then
    mret [label_text ("Video loaded: " +:+ basename media_path)]
  else mret [].

(** [process_media], lines 353-386.  The attributes are updated in place,
    so what was set before an exception stays set. *)
Definition process_media (a : app) : M (app * list gui_event) :=
  fun st =>
    let start_time := if negb (app_video_blur_full a) then app_start_time a else 0%Q in
    let end_time := if negb (app_video_blur_full a) then Some (app_end_time a) else None in
    match process_media_in_parallel gauss_px pil_px writable has_encoder as_completed
            (app_tmp_media_paths a) (app_roi a) (app_blur_mode a)
            (app_custom_blur_settings a) start_time end_time st with
    | (Return output_paths, st1) =>
        match output_paths with
        | first :: _ =>
            let a' := set_processed_paths a output_paths in
            match display_media first st1 with
            | (Return shown, st2) =>
                (Return (a', showinfo "Processing Complete" :: shown), st2)
            | (Raise e, st2) =>
                (Return (a', [showinfo "Processing Complete"; showerror "Error"]),
                 State (heap st2) (logs st2 ++ [(ERROR, "Error during processing")])
                   (files st2))
            end
        | [] =>
            (Return (a, [logging_warning "No media files were processed.";
                         showwarning "Processing Incomplete"]), st1)
        end
    | (Raise e, st1) =>
        (Return (a, [showerror "Error"]),
         State (heap st1) (logs st1 ++ [(ERROR, "Error during processing")])
           (files st1))
    end.

End Gui.

(** ** [TestRun.py] *)

Module TestRun.

(** Where Python puts a slice bound: a negative bound counts from the end,
    and both are clamped to the axis. *)
Definition slice_bound (i len : Z) : Z :=
  if (i <? 0)%Z then Z.max 0 (i + len) else Z.min i len.

(** [l[lo:hi]] for any bounds. *)
Definition py_slice {A} (lo hi : Z) (l : list A) : list A :=
  let len := Z.of_nat (length l) in
  take (Z.to_nat (slice_bound hi len - slice_bound lo len))
       (drop (Z.to_nat (slice_bound lo len)) l).

(** [image[y : y + h, x : x + w]]. *)
Definition py_crop (a : ndarray) (x y w h : Z) : ndarray :=
  (fun row : list pixel => py_slice x (x + w) row) <$> py_slice y (y + h) a.

(** [image[y : y + h, x : x + w] = b] on the array at [l], whose content
    is [a]: the write starts where the slice starts. *)
Definition py_setitem (l : loc) (a : ndarray) (x y w h : Z) (b : ndarray) : M unit :=
  if same_shape (py_crop a x y w h) b
  then
    fun st =>
      (Return tt,
       State (<[l := paste a (slice_bound x (shape1 a))
                        (slice_bound y (shape0 a)) b]> (heap st))
         (logs st) (files st))
  else raise (ValueError "could not broadcast input array").

Section Script.

Variable gauss_px : ndarray -> Z -> Q -> nat -> nat -> pixel.

(** [apply_blur] of [TestRun.py], lines 7-35: always the Heavy kernel
    (the mode and the settings are not looked at), on a copy of the image,
    no check of the region and no handler. *)
Definition apply_blur (image : option loc) (roi : roi_t) (blur_mode : string)
    (custom_settings : gmap string pyval) : M (option loc) :=
  match image with
  | None => mret None
  | Some im =>
      a ← deref im;
      image ← alloc a;
      match roi with
      | (x, y, w, h) =>
          blurred_roi ← lift (GaussianBlur gauss_px (py_crop a x y w h) 51 0);
          py_setitem image a x y w h blurred_roi;;
          mret (Some image)
      end
  end.

(** [blur_region] of [TestRun.py], lines 38-53. *)
Definition blur_region (frame : option loc) : M (option loc) :=
  apply_blur frame (50, 50, 200, 200)%Z "Heavy" ∅.

End Script.

End TestRun.

(** ** Definitions used to state the properties *)

(** What the mode chain computes from a crop; it reads no array of the
    store (see [blur_by_mode_run]). *)
Definition blur_result (gauss_px : ndarray -> Z -> Q -> nat -> nat -> pixel)
    (pil_px : ndarray -> Q -> nat -> nat -> pixel)
    (blur_mode : string) (custom_settings : gmap string pyval)
    (roi_section : ndarray) : outcome (option ndarray) :=
  fst (blur_by_mode gauss_px pil_px blur_mode custom_settings roi_section
         (State [] [] ∅)).

(** The part of the frame the filter is given. *)
Definition region_of (a : ndarray) (roi : option roi_t) : ndarray :=
  match roi with
  | Some (x, y, w, h) => crop a x y w h
  | None => a
  end.

Definition in_bounds (a : ndarray) (roi : option roi_t) : Prop :=
  match roi with
  | Some r => roi_out_of_bounds a r = false
  | None => True
  end.

(** The reference returned and the store left behind, from the outcome of
    the mode chain. *)
Definition store_after (h : list ndarray) (im : loc) (a : ndarray)
    (roi : option roi_t) (r : outcome (option ndarray)) : option loc * list ndarray :=
  match r with
  | Return (Some b) =>
      match roi with
      | Some (x, y, w, h') =>
          if same_shape (crop a x y w h') b
          then (Some im, <[im := paste a x y b]> h)
          else (None, h)
      | None => (Some (length h), h ++ [b])
      end
  | _ => (None, h)
  end.

Definition supported_modes : list string :=
  ["Heavy"; "Slight"; "Custom"; "Motion"; "Radial"].

(** ** Inputs on which the statements are evaluated *)

(** Where a run needs values for the Gaussian weights, the source pixel
    itself stands for them (what a kernel of side 1 gives). *)
Definition unit_gauss : ndarray -> Z -> Q -> nat -> nat -> pixel :=
  fun src _ _ r c => pixel_at src (Z.of_nat r) (Z.of_nat c).
Definition unit_pil : ndarray -> Q -> nat -> nat -> pixel :=
  fun src _ r c => pixel_at src (Z.of_nat r) (Z.of_nat c).

(** One grey pixel, and a 2 x 3 frame. *)
Definition grey_frame : ndarray := [[(10, 10, 10)%Z]].
Definition small_frame : ndarray :=
  [[(1, 2, 3); (4, 5, 6); (7, 8, 9)];
   [(10, 20, 30); (40, 50, 60); (70, 80, 90)]]%Z.

(** A frame of one colour. *)
Definition constant_frame (h w : nat) (v : Z) : ndarray :=
  replicate h (replicate w (v, v, v)).

(** The settings of the example at the end of [FlexiBlur.py]. *)
Definition example_settings : gmap string pyval :=
  <["ksize" := PInt 25]> (<["sigma" := PInt 5]>
    (<["direction" := PStr "horizontal"]> (<["angle" := PInt 45]> ∅))).

Definition grey_state : state := State [grey_frame] [] ∅.
Definition small_state : state := State [small_frame] [] ∅.

(** A still image and a two-second video (four frames, numbered by their
    blue channel) on disk. *)
Definition counting_clip : clip ndarray :=
  Clip 2%Q 2%Z (fun t => [[(Qfloor (t * 2)%Q, 0, 0)%Z]]) None.

Definition media_state : state :=
  State [] []
    (<["a.jpg" := ImageFile grey_frame]> (<["v.mp4" := VideoFile counting_clip]> ∅)).

Definition always_ok (path : string) : bool := true.
Definition read_only (path : string) : bool := false.

(** The middle second of [counting_clip], every frame through a
    horizontal Motion blur. *)
Definition window_example : clip (option ndarray) :=
  Clip ((3 # 2) - (1 # 2))%Q 2%Z
    (fun t => blur_region unit_gauss unit_pil None "Motion" example_settings
                (get_frame counting_clip (t + (1 # 2))%Q))
    None.

(** Two completion orders: as submitted, and last submitted first. *)
Definition in_submission_order (A : Type) (l : list A) : list A := l.
Definition in_reverse_order (A : Type) (l : list A) : list A := reverse l.

(** The results of the futures in the order they complete, and how many of
    them are [None]. *)
Fixpoint run_futures (futures : list (M (option string))) : M (list (option string)) :=
  match futures with
  | [] => mret []
  | future :: rest =>
      result ← future;
      results ← run_futures rest;
      mret (result :: results)
  end.

Fixpoint failures (results : list (option string)) : nat :=
  match results with
  | [] => 0
  | None :: rest => S (failures rest)
  | Some _ :: rest => failures rest
  end.

(** ** Monad steps *)

Ltac run := unfold mbind, M_bind, mret, M_ret, lift, raise, logging, try_except,
  deref, alloc, setitem in *; simpl in *.

Lemma state_eta (st : state) : State (heap st) (logs st ++ []) (files st) = st.
Proof. destruct st; simpl. by rewrite app_nil_r. Qed.

Section ApplyBlur.

Variable gauss_px : ndarray -> Z -> Q -> nat -> nat -> pixel.
Variable pil_px : ndarray -> Q -> nat -> nat -> pixel.

Lemma blur_by_mode_run (mode : string) (cs : gmap string pyval)
    (sec : ndarray) (st : state) :
  exists lg,
    blur_by_mode gauss_px pil_px mode cs sec st
    = (blur_result gauss_px pil_px mode cs sec,
       State (heap st) (logs st ++ lg) (files st)).
Proof.
  unfold blur_result, blur_by_mode.
  repeat match goal with
         | |- context [String.eqb ?a ?b] => destruct (String.eqb a b)
         end; run;
  repeat match goal with
         | |- context [getitem ?d ?k] => destruct (getitem d k); simpl
         | |- context [as_int ?v] => destruct (as_int v); simpl
         | |- context [as_number ?v] => destruct (as_number v); simpl
         | |- context [GaussianBlur ?g ?s ?k ?q] => destruct (GaussianBlur g s k q); simpl
         | |- context [filter2D ?s ?k] => destruct (filter2D s k); simpl
         | |- context [cvtColor ?s] => destruct (cvtColor s); simpl
         | |- context [match ?v with PNone => _ | _ => _ end] => destruct v; simpl
         | |- context [if String.eqb ?a ?b then _ else _] => destruct (String.eqb a b); simpl
         end;
  try (exists []; by rewrite state_eta);
  try (eexists; reflexivity).
Qed.

(** A region out of bounds: the frame comes back as it is. *)
Lemma apply_blur_out_of_bounds (st : state) (im : loc) (a : ndarray)
    (r : roi_t) (mode : string) (cs : gmap string pyval) :
  heap st !! im = Some a ->
  roi_out_of_bounds a r = true ->
  apply_blur gauss_px pil_px (Some im) (Some r) mode cs st
  = (Return (Some im),
     State (heap st)
       (logs st ++ [(DEBUG, "Starting apply_blur for <image>");
                    (DEBUG, "Applying " +:+ mode +:+ " blur to ROI");
                    (ERROR, "Invalid ROI specified");
                    (DEBUG, "Completed apply_blur for <image>")])
       (files st)).
Proof.
  intros Ha Hr. destruct r as [[[x y] w] h].
  unfold apply_blur, handle_exceptions, apply_blur_body. run.
  rewrite Ha. simpl. rewrite Hr. simpl.
  by rewrite <- !app_assoc.
Qed.

(** A region in bounds, or none: the mode chain decides. *)
Lemma apply_blur_in_bounds (st : state) (im : loc) (a : ndarray)
    (roi : option roi_t) (mode : string) (cs : gmap string pyval) :
  heap st !! im = Some a ->
  in_bounds a roi ->
  exists lg,
    let u := store_after (heap st) im a roi
               (blur_result gauss_px pil_px mode cs (region_of a roi)) in
    apply_blur gauss_px pil_px (Some im) roi mode cs st
    = (Return (fst u), State (snd u) (logs st ++ lg) (files st)).
Proof.
  intros Ha Hr.
  unfold apply_blur, handle_exceptions, apply_blur_body. run.
  rewrite Ha. simpl.
  destruct roi as [[[[x y] w] h]|]; simpl in *.
  - rewrite Hr.
    match goal with
    | |- context [blur_by_mode _ _ _ _ _ ?s] =>
        destruct (blur_by_mode_run mode cs (crop a x y w h) s) as [lg ->]
    end.
    simpl. destruct (blur_result _ _ _ _ _) as [[b|]|e]; simpl.
    + rewrite Ha. destruct (same_shape (crop a x y w h) b); simpl;
        rewrite <- !app_assoc; eexists; reflexivity.
    + rewrite <- !app_assoc; eexists; reflexivity.
    + rewrite <- !app_assoc; eexists; reflexivity.
  - match goal with
    | |- context [blur_by_mode _ _ _ _ _ ?s] =>
        destruct (blur_by_mode_run mode cs a s) as [lg ->]
    end.
    simpl. destruct (blur_result _ _ _ _ _) as [[b|]|e]; simpl;
      rewrite <- !app_assoc; eexists; reflexivity.
Qed.

End ApplyBlur.

(** ** Arrays: crops, filters and write-back keep the shape *)

Section Arrays.

Implicit Types (a b : ndarray) (x y w h i j : Z).

Lemma rectangular_lengths a :
  rectangular a -> length <$> a = replicate (length a) (width_of a).
Proof.
  intros Hr. symmetry. apply replicate_as_Forall.
  split; [by rewrite length_fmap |].
  apply Forall_fmap. eapply Forall_impl; [exact Hr |].
  intros r Hlen. simpl in *. unfold width_of. lia.
Qed.

Lemma out_of_bounds_false a x y w h :
  roi_out_of_bounds a (x, y, w, h) = false <->
  (0 <= x /\ 0 <= y /\ 0 < w /\ 0 < h
   /\ x + w <= shape1 a /\ y + h <= shape0 a)%Z.
Proof.
  unfold roi_out_of_bounds.
  rewrite !orb_false_iff, !Z.ltb_ge, !Z.leb_gt. lia.
Qed.

Lemma out_of_bounds_true a x y w h :
  roi_out_of_bounds a (x, y, w, h) = true <->
  (x < 0 \/ y < 0 \/ w <= 0 \/ h <= 0
   \/ x + w > shape1 a \/ y + h > shape0 a)%Z.
Proof.
  unfold roi_out_of_bounds.
  rewrite !orb_true_iff, !Z.ltb_lt, !Z.leb_le. lia.
Qed.

Lemma length_slice {A} (l : list A) lo n :
  (0 <= lo)%Z -> (0 <= n)%Z -> (lo + n <= Z.of_nat (length l))%Z ->
  length (slice lo (lo + n) l) = Z.to_nat n.
Proof.
  intros. unfold slice. rewrite length_take, length_drop.
  replace (lo + n - lo)%Z with n by lia. lia.
Qed.

Lemma lookup_slice {A} (l : list A) lo n (k : nat) :
  (0 <= lo)%Z -> (k < Z.to_nat n)%nat ->
  slice lo (lo + n) l !! k = l !! (Z.to_nat lo + k)%nat.
Proof.
  intros. unfold slice.
  replace (lo + n - lo)%Z with n by lia.
  by rewrite lookup_take_lt, lookup_drop.
Qed.

Lemma crop_lengths a x y w h :
  rectangular a -> roi_out_of_bounds a (x, y, w, h) = false ->
  length <$> crop a x y w h = replicate (Z.to_nat h) (Z.to_nat w).
Proof.
  intros Hr Hb. apply out_of_bounds_false in Hb.
  unfold shape0 in Hb. symmetry. apply replicate_as_Forall. unfold crop.
  split.
  - rewrite !length_fmap. apply length_slice; lia.
  - apply Forall_fmap, Forall_fmap. apply Forall_take, Forall_drop.
    eapply Forall_impl; [exact Hr |]. intros r Hlen. simpl in Hlen |- *.
    symmetry. apply length_slice; lia.
Qed.

Lemma crop_shape a x y w h :
  rectangular a -> roi_out_of_bounds a (x, y, w, h) = false ->
  shape0 (crop a x y w h) = h /\ shape1 (crop a x y w h) = w.
Proof.
  intros Hr Hb. pose proof (crop_lengths a x y w h Hr Hb) as Hl.
  apply out_of_bounds_false in Hb.
  assert (Hlen : length (crop a x y w h) = Z.to_nat h).
  { rewrite <- (length_fmap length), Hl. apply length_replicate. }
  split; [unfold shape0; lia |].
  unfold shape1. destruct (crop a x y w h) as [|r c] eqn:E; simpl in *; [lia |].
  destruct (Z.to_nat h) eqn:Eh; simpl in Hl; [lia |].
  injection Hl as Hl _. lia.
Qed.

Lemma crop_pixel a x y w h i j :
  (0 <= x)%Z -> (0 <= y)%Z -> (0 <= i < h)%Z -> (0 <= j < w)%Z ->
  pixel_at (crop a x y w h) i j = pixel_at a (y + i) (x + j).
Proof.
  intros. unfold pixel_at, crop.
  rewrite list_lookup_fmap, lookup_slice by lia.
  replace (Z.to_nat y + Z.to_nat i)%nat with (Z.to_nat (y + i)) by lia.
  destruct (a !! Z.to_nat (y + i)) as [row|]; simpl; [| done].
  rewrite lookup_slice by lia.
  by replace (Z.to_nat x + Z.to_nat j)%nat with (Z.to_nat (x + j)) by lia.
Qed.

Lemma tabulate_lengths (n m : nat) (f : nat -> nat -> pixel) :
  length <$> tabulate n m f = replicate n m.
Proof.
  unfold tabulate. symmetry. apply replicate_as_Forall.
  split; [by rewrite !length_fmap, length_seq |].
  apply Forall_fmap, Forall_fmap, Forall_forall. intros r _. simpl.
  by rewrite length_fmap, length_seq.
Qed.

Lemma cvtColor_swap_lengths a : length <$> cvtColor_swap a = length <$> a.
Proof.
  unfold cvtColor_swap. rewrite <- list_fmap_compose.
  apply list_fmap_ext. intros k r _. simpl. by rewrite length_fmap.
Qed.

Lemma cvtColor_swap_length a : length (cvtColor_swap a) = length a.
Proof. unfold cvtColor_swap. by rewrite length_fmap. Qed.

Lemma width_of_lengths a b :
  length <$> a = length <$> b -> width_of a = width_of b.
Proof.
  unfold width_of, shape1. destruct a, b; simpl; try done.
  intros [= -> _]. done.
Qed.

Lemma length_splice {A} (k : nat) (new old : list A) :
  (k + length new <= length old)%nat ->
  length (splice k new old) = length old.
Proof.
  intros. unfold splice.
  rewrite !length_app, length_take, length_drop. lia.
Qed.

Lemma lookup_splice {A} (k : nat) (new old : list A) (c : nat) :
  (k + length new <= length old)%nat ->
  splice k new old !! c
  = if decide (c < k)%nat then old !! c
    else if decide (c < k + length new)%nat then new !! (c - k)%nat
    else old !! c.
Proof.
  intros Hle. unfold splice.
  destruct (decide (c < k)%nat) as [Hc|Hc].
  - rewrite lookup_app_l by (rewrite length_take; lia).
    by apply lookup_take_lt.
  - rewrite lookup_app_r by (rewrite length_take; lia).
    rewrite length_take. replace (k `min` length old)%nat with k by lia.
    destruct (decide (c < k + length new)%nat) as [Hc'|Hc'].
    + by rewrite lookup_app_l by lia.
    + rewrite lookup_app_r by lia. rewrite lookup_drop. f_equal. lia.
Qed.

(** The rows written back, when [b] has as many rows as the slice. *)
Lemma length_paste_rows a b (k m : nat) :
  (m + length b <= length a)%nat ->
  length (zip_with (splice k) b (take (length b) (drop m a))) = length b.
Proof.
  intros. rewrite length_zip_with, length_take, length_drop. lia.
Qed.

Lemma paste_lengths a x y w h b :
  rectangular a -> roi_out_of_bounds a (x, y, w, h) = false ->
  length <$> b = replicate (Z.to_nat h) (Z.to_nat w) ->
  length <$> paste a x y b = length <$> a.
Proof.
  intros Hr Hb Hl. apply out_of_bounds_false in Hb. unfold shape0 in Hb.
  assert (Hlb : length b = Z.to_nat h).
  { rewrite <- (length_fmap length), Hl. apply length_replicate. }
  apply list_eq. intros r. rewrite !list_lookup_fmap. unfold paste.
  rewrite lookup_splice by (rewrite length_paste_rows; lia).
  rewrite length_paste_rows by lia.
  destruct (decide (r < Z.to_nat y)%nat); [done |].
  destruct (decide (r < Z.to_nat y + length b)%nat); [| done].
  rewrite lookup_zip_with, lookup_take_lt, lookup_drop by lia.
  replace (Z.to_nat y + (r - Z.to_nat y))%nat with r by lia.
  destruct (b !! (r - Z.to_nat y)%nat) as [br|] eqn:Eb; simpl.
  2: { apply lookup_ge_None in Eb. lia. }
  destruct (a !! r) as [ar|] eqn:Ea; simpl; [| done].
  f_equal. apply length_splice.
  assert (length br = Z.to_nat w).
  { assert (Hbr : (length <$> b) !! (r - Z.to_nat y)%nat = Some (length br))
      by (by rewrite list_lookup_fmap, Eb).
    rewrite Hl in Hbr. apply lookup_replicate_1 in Hbr. lia. }
  assert (Z.of_nat (length ar) = shape1 a).
  { unfold rectangular in Hr. rewrite Forall_lookup in Hr. by eapply Hr. }
  lia.
Qed.

Lemma paste_pixel a x y w h b (r c : Z) :
  rectangular a -> roi_out_of_bounds a (x, y, w, h) = false ->
  length <$> b = replicate (Z.to_nat h) (Z.to_nat w) ->
  (0 <= r)%Z -> (0 <= c)%Z ->
  pixel_at (paste a x y b) r c
  = if decide (y <= r < y + h /\ x <= c < x + w)%Z
    then pixel_at b (r - y) (c - x)
    else pixel_at a r c.
Proof.
  intros Hr Hb Hl Hr0 Hc0. apply out_of_bounds_false in Hb. unfold shape0 in Hb.
  assert (Hlb : length b = Z.to_nat h).
  { rewrite <- (length_fmap length), Hl. apply length_replicate. }
  unfold pixel_at, paste.
  rewrite lookup_splice by (rewrite length_paste_rows; lia).
  rewrite length_paste_rows by lia.
  destruct (decide (Z.to_nat r < Z.to_nat y)%nat).
  { rewrite decide_False by lia. done. }
  destruct (decide (Z.to_nat r < Z.to_nat y + length b)%nat).
  2: { rewrite decide_False by lia. done. }
  rewrite lookup_zip_with, lookup_take_lt, lookup_drop by lia.
  replace (Z.to_nat y + (Z.to_nat r - Z.to_nat y))%nat with (Z.to_nat r) by lia.
  replace (Z.to_nat r - Z.to_nat y)%nat with (Z.to_nat (r - y)) by lia.
  destruct (b !! Z.to_nat (r - y)) as [br|] eqn:Eb; simpl.
  2: { apply lookup_ge_None in Eb. lia. }
  destruct (a !! Z.to_nat r) as [ar|] eqn:Ea; simpl.
  2: { apply lookup_ge_None in Ea. lia. }
  assert (length br = Z.to_nat w).
  { assert (Hbr : (length <$> b) !! Z.to_nat (r - y) = Some (length br))
      by (by rewrite list_lookup_fmap, Eb).
    rewrite Hl in Hbr. apply lookup_replicate_1 in Hbr. lia. }
  assert (Z.of_nat (length ar) = shape1 a).
  { unfold rectangular in Hr. rewrite Forall_lookup in Hr. by eapply Hr. }
  rewrite lookup_splice by lia.
  destruct (decide (Z.to_nat c < Z.to_nat x)%nat).
  { rewrite decide_False by lia. done. }
  destruct (decide (Z.to_nat c < Z.to_nat x + length br)%nat).
  - rewrite decide_True by lia.
    by replace (Z.to_nat c - Z.to_nat x)%nat with (Z.to_nat (c - x)) by lia.
  - rewrite decide_False by lia. done.
Qed.

End Arrays.

(** ** [apply_blur] *)

Section ApplyBlurProperties.

Variable gauss_px : ndarray -> Z -> Q -> nat -> nat -> pixel.
Variable pil_px : ndarray -> Q -> nat -> nat -> pixel.

(** The filters return an array of the shape of the crop they get. *)
Lemma blur_result_lengths (mode : string) (cs : gmap string pyval)
    (sec b : ndarray) :
  length <$> sec = replicate (length sec) (width_of sec) ->
  blur_result gauss_px pil_px mode cs sec = Return (Some b) ->
  length <$> b = length <$> sec.
Proof.
  intros Hu. unfold blur_result, blur_by_mode.
  repeat match goal with
         | |- context [String.eqb ?a ?b] => destruct (String.eqb a b)
         end; run;
  repeat match goal with
         | |- context [getitem ?d ?k] => destruct (getitem d k); simpl
         | |- context [as_int ?v] => destruct (as_int v); simpl
         | |- context [as_number ?v] => destruct (as_number v); simpl
         | |- context [match ?v with PNone => _ | _ => _ end] => destruct v; simpl
         | |- context [if String.eqb ?a ?b then _ else _] => destruct (String.eqb a b); simpl
         end;
  unfold GaussianBlur, filter2D, cvtColor, pil_GaussianBlur;
  repeat match goal with
         | |- context [is_empty ?s] => destruct (is_empty s); simpl
         | |- context [ksize_ok ?k ?q] => destruct (ksize_ok k q); simpl
         end;
  try discriminate;
  intros [= <-];
  rewrite ?cvtColor_swap_lengths, ?tabulate_lengths, ?cvtColor_swap_length;
  rewrite ?(width_of_lengths _ _ (cvtColor_swap_lengths sec));
  by rewrite Hu.
Qed.

Lemma region_lengths (a : ndarray) (roi : option roi_t) :
  rectangular a -> in_bounds a roi ->
  length <$> region_of a roi
  = replicate (length (region_of a roi)) (width_of (region_of a roi)).
Proof.
  intros Hr Hb. destruct roi as [[[[x y] w] h]|]; simpl in *.
  - rewrite (crop_lengths a x y w h Hr Hb).
    destruct (crop_shape a x y w h Hr Hb) as [H0 H1].
    unfold width_of. rewrite H1. unfold shape0 in H0.
    f_equal. lia.
  - by apply rectangular_lengths.
Qed.

(** When the mode chain gives no array, [apply_blur] returns [None] and
    the store is as before. *)
Lemma apply_blur_no_result (st : state) (im : loc) (a : ndarray)
    (roi : option roi_t) (mode : string) (cs : gmap string pyval) :
  heap st !! im = Some a ->
  in_bounds a roi ->
  (forall b, blur_result gauss_px pil_px mode cs (region_of a roi) <> Return (Some b)) ->
  exists st',
    apply_blur gauss_px pil_px (Some im) roi mode cs st = (Return None, st')
    /\ heap st' = heap st /\ files st' = files st.
Proof.
  intros Ha Hb Hno.
  destruct (apply_blur_in_bounds gauss_px pil_px st im a roi mode cs Ha Hb)
    as [lg Hrun].
  simpl in Hrun. rewrite Hrun. unfold store_after.
  destruct (blur_result _ _ _ _ _) as [[b|]|e]; [by destruct (Hno b) | |];
    eexists; repeat split.
Qed.

Lemma unknown_mode_result (mode : string) (cs : gmap string pyval) (sec : ndarray) :
  mode ∉ supported_modes ->
  blur_result gauss_px pil_px mode cs sec = Return None.
Proof.
  unfold supported_modes. rewrite !not_elem_of_cons.
  intros (H1 & H2 & H3 & H4 & H5 & _).
  unfold blur_result, blur_by_mode.
  apply String.eqb_neq in H1, H2, H3, H4, H5.
  by rewrite H1, H2, H3, H4, H5.
Qed.

Lemma bad_direction_result (cs : gmap string pyval) (v : pyval) (sec : ndarray) :
  cs !! "direction" = Some v ->
  v <> PStr "horizontal" -> v <> PStr "vertical" ->
  blur_result gauss_px pil_px "Motion" cs sec
  = Raise (UnboundLocalError "kernel").
Proof.
  intros Hv Hh Hvt. unfold blur_result, blur_by_mode. simpl.
  unfold getitem. rewrite Hv. run.
  destruct v as [|n|q|s]; try done.
  destruct (String.eqb s "horizontal") eqn:E1.
  { apply String.eqb_eq in E1. congruence. }
  destruct (String.eqb s "vertical") eqn:E2.
  { apply String.eqb_eq in E2. congruence. }
  done.
Qed.

Lemma even_ksize_result (cs : gmap string pyval) (k : Z) (sec : ndarray) :
  cs !! "ksize" = Some (PInt k) ->
  (0 < k)%Z -> Z.even k = true ->
  exists e, blur_result gauss_px pil_px "Custom" cs sec = Raise e.
Proof.
  intros Hk Hpos Hev. unfold blur_result, blur_by_mode. simpl.
  unfold getitem. rewrite Hk. run.
  destruct (cs !! "sigma") as [sg|]; simpl; [| by eexists].
  destruct (as_number sg) as [q|e]; simpl; [| by eexists].
  unfold GaussianBlur, ksize_ok.
  destruct (is_empty sec); [by eexists |].
  rewrite <- Z.negb_even, Hev.
  replace (k <=? 0)%Z with false by (symmetry; apply Z.leb_gt; lia).
  rewrite andb_false_r. simpl. by eexists.
Qed.

End ApplyBlurProperties.

(** ** The region policy and the failure paths of [apply_blur] *)

(** C4.  A region that breaks a bound (negative origin, non-positive size,
    or reaching past the frame) does not fail the call: [apply_blur]
    returns the very frame it was given, the store is as before, and the
    error "Invalid ROI specified" is logged.  A region inside the frame
    passes the check and is used as it is: the crop given to the filter has
    height [h] and width [w], its pixel [(i, j)] is the frame's pixel
    [(y + i, x + j)], and the filter's result is written back at [(x, y)]. *)
Theorem apply_blur_region_policy
    (gauss_px : ndarray -> Z -> Q -> nat -> nat -> pixel)
    (pil_px : ndarray -> Q -> nat -> nat -> pixel)
    (st : state) (im : loc) (a : ndarray) (x y w h : Z)
    (mode : string) (cs : gmap string pyval) :
  heap st !! im = Some a ->
  rectangular a ->
  ((x < 0 \/ y < 0 \/ w <= 0 \/ h <= 0 \/ x + w > shape1 a \/ y + h > shape0 a)%Z ->
   exists st',
     apply_blur gauss_px pil_px (Some im) (Some (x, y, w, h)) mode cs st
     = (Return (Some im), st')
     /\ heap st' = heap st /\ files st' = files st
     /\ (ERROR, "Invalid ROI specified") ∈ logs st')
  /\ ((0 <= x /\ 0 <= y /\ 0 < w /\ 0 < h /\ x + w <= shape1 a /\ y + h <= shape0 a)%Z ->
      shape0 (crop a x y w h) = h /\ shape1 (crop a x y w h) = w
      /\ (forall i j, (0 <= i < h)%Z -> (0 <= j < w)%Z ->
            pixel_at (crop a x y w h) i j = pixel_at a (y + i) (x + j))
      /\ exists lg,
           let u := store_after (heap st) im a (Some (x, y, w, h))
                      (blur_result gauss_px pil_px mode cs (crop a x y w h)) in
           apply_blur gauss_px pil_px (Some im) (Some (x, y, w, h)) mode cs st
           = (Return (fst u), State (snd u) (logs st ++ lg) (files st))).
Proof.
  intros Ha Hr. split.
  - intros Hbad. apply (out_of_bounds_true a) in Hbad.
    eexists. split; [by apply (apply_blur_out_of_bounds _ _ st im a) |].
    simpl. repeat split.
    rewrite elem_of_app. right. set_solver.
  - intros Hok. apply (out_of_bounds_false a) in Hok.
    destruct (crop_shape a x y w h Hr Hok) as [H0 H1].
    repeat split; [done | done | |].
    + intros i j Hi Hj. apply out_of_bounds_false in Hok.
      apply crop_pixel; lia.
    + exact (apply_blur_in_bounds gauss_px pil_px st im a
               (Some (x, y, w, h)) mode cs Ha Hok).
Qed.

Lemma apply_blur_region_policy_witness :
  heap small_state !! 0%nat = Some small_frame
  /\ rectangular small_frame
  /\ (exists st',
        apply_blur unit_gauss unit_pil (Some 0%nat) (Some (2, 0, 2, 1)%Z)
          "Heavy" example_settings small_state
        = (Return (Some 0%nat), st')
        /\ heap st' = heap small_state)
  /\ pixel_at (crop small_frame 1 0 2 2) 1 1 = (70, 80, 90)%Z.
Proof.
  assert (Ha : heap small_state !! 0%nat = Some small_frame) by reflexivity.
  assert (Hr : rectangular small_frame) by (repeat constructor).
  split; [exact Ha |]. split; [exact Hr |]. split.
  - destruct (apply_blur_region_policy unit_gauss unit_pil small_state 0%nat
                small_frame 2 0 2 1 "Heavy" example_settings Ha Hr) as [Hbad _].
    destruct Hbad as (st' & Hrun & Hheap & _).
    { right; right; right; right; left.
      unfold shape1, small_frame. simpl length. lia. }
    exists st'. by split.
  - destruct (apply_blur_region_policy unit_gauss unit_pil small_state 0%nat
                small_frame 1 0 2 2 "Heavy" example_settings Ha Hr) as [_ Hok].
    destruct Hok as (_ & _ & Hpix & _).
    { unfold shape0, shape1, small_frame. simpl length. lia. }
    rewrite (Hpix 1 1)%Z by lia. reflexivity.
Defined.

Lemma pixelate_unsupported : "Pixelate" ∉ supported_modes.
Proof.
  unfold supported_modes. rewrite !not_elem_of_cons.
  repeat split; try discriminate. apply not_elem_of_nil.
Qed.

(** C6 (as the code has it).  With a mode outside Heavy, Slight, Custom,
    Motion and Radial, and a region that is absent or inside the frame,
    [apply_blur] returns no frame and the store is as before.  A region out
    of bounds is dealt with first: then the frame itself comes back,
    unmodified, whatever the mode. *)
Theorem apply_blur_unknown_mode
    (gauss_px : ndarray -> Z -> Q -> nat -> nat -> pixel)
    (pil_px : ndarray -> Q -> nat -> nat -> pixel)
    (st : state) (im : loc) (a : ndarray) (roi : option roi_t)
    (mode : string) (cs : gmap string pyval) :
  heap st !! im = Some a ->
  mode ∉ supported_modes ->
  (in_bounds a roi ->
   exists st',
     apply_blur gauss_px pil_px (Some im) roi mode cs st = (Return None, st')
     /\ heap st' = heap st /\ files st' = files st)
  /\ (forall r, roi = Some r -> roi_out_of_bounds a r = true ->
      exists st',
        apply_blur gauss_px pil_px (Some im) roi mode cs st = (Return (Some im), st')
        /\ heap st' = heap st /\ files st' = files st).
Proof.
  intros Ha Hm. split.
  - intros Hb. apply (apply_blur_no_result _ _ st im a roi mode cs Ha Hb).
    intros b. by rewrite unknown_mode_result.
  - intros r -> Hbad. eexists.
    split; [by apply (apply_blur_out_of_bounds _ _ st im a) |]. by simpl.
Qed.

Lemma apply_blur_unknown_mode_witness :
  heap grey_state !! 0%nat = Some grey_frame
  /\ ("Pixelate" ∉ supported_modes)
  /\ exists st',
       apply_blur unit_gauss unit_pil (Some 0%nat) (Some (0, 0, 1, 1)%Z)
         "Pixelate" example_settings grey_state
       = (Return None, st')
       /\ heap st' = heap grey_state.
Proof.
  assert (Ha : heap grey_state !! 0%nat = Some grey_frame) by reflexivity.
  assert (Hm : "Pixelate" ∉ supported_modes) by exact pixelate_unsupported.
  split; [exact Ha |]. split; [exact Hm |].
  destruct (apply_blur_unknown_mode unit_gauss unit_pil grey_state 0%nat
              grey_frame (Some (0, 0, 1, 1)%Z) "Pixelate" example_settings Ha Hm)
    as [Hin _].
  destruct Hin as (st' & Hrun & Hheap & _); [reflexivity |].
  exists st'. by split.
Defined.

(** C6 as stated fails for a region out of bounds: the unknown mode is
    never looked at and the frame is returned. *)
Lemma apply_blur_unknown_mode_counterexample :
  ("Pixelate" ∉ supported_modes)
  /\ fst (apply_blur unit_gauss unit_pil (Some 0%nat) (Some (0, 0, 2, 2)%Z)
            "Pixelate" example_settings grey_state)
     = Return (Some 0%nat)
  /\ fst (apply_blur unit_gauss unit_pil (Some 0%nat) (Some (0, 0, 2, 2)%Z)
            "Pixelate" example_settings grey_state)
     <> Return None.
Proof.
  split; [exact pixelate_unsupported |].
  split; [reflexivity | discriminate].
Qed.

(** C10.  In Motion mode with a direction that is neither "horizontal" nor
    "vertical", no kernel is bound; the failure is caught inside
    [apply_blur], which returns no frame (it does not raise), and the store
    is as before. *)
Theorem apply_blur_motion_bad_direction
    (gauss_px : ndarray -> Z -> Q -> nat -> nat -> pixel)
    (pil_px : ndarray -> Q -> nat -> nat -> pixel)
    (st : state) (im : loc) (a : ndarray) (roi : option roi_t)
    (cs : gmap string pyval) (v : pyval) :
  heap st !! im = Some a ->
  in_bounds a roi ->
  cs !! "direction" = Some v ->
  v <> PStr "horizontal" -> v <> PStr "vertical" ->
  exists st',
    apply_blur gauss_px pil_px (Some im) roi "Motion" cs st = (Return None, st')
    /\ heap st' = heap st /\ files st' = files st.
Proof.
  intros Ha Hb Hv Hh Hvt.
  apply (apply_blur_no_result _ _ st im a roi "Motion" cs Ha Hb).
  intros b. by rewrite (bad_direction_result _ _ cs v).
Qed.

Lemma apply_blur_motion_bad_direction_witness :
  exists st',
    apply_blur unit_gauss unit_pil (Some 0%nat) (Some (1, 0, 2, 2)%Z) "Motion"
      (<["direction" := PStr "diagonal"]> example_settings) small_state
    = (Return None, st')
    /\ heap st' = heap small_state /\ files st' = files small_state.
Proof.
  apply (apply_blur_motion_bad_direction unit_gauss unit_pil small_state 0%nat
           small_frame (Some (1, 0, 2, 2)%Z)
           (<["direction" := PStr "diagonal"]> example_settings)
           (PStr "diagonal")).
  - reflexivity.
  - reflexivity.
  - reflexivity.
  - discriminate.
  - discriminate.
Defined.

(** ** Where the blurred pixels go *)

(** C2 (as the code has it).  After a successful call on a frame with a
    region inside it, the reference returned is the caller's own array and
    the blurred crop has been written into it: the pixels of the region are
    those of the filter's result, every other pixel is as before.  Only
    with an absent region is the caller's array left alone: the result is
    then a new array.  Nothing else in the store changes. *)
Theorem apply_blur_writes_in_place
    (gauss_px : ndarray -> Z -> Q -> nat -> nat -> pixel)
    (pil_px : ndarray -> Q -> nat -> nat -> pixel)
    (st st' : state) (im out : loc) (a : ndarray) (roi : option roi_t)
    (mode : string) (cs : gmap string pyval) :
  heap st !! im = Some a ->
  rectangular a ->
  in_bounds a roi ->
  apply_blur gauss_px pil_px (Some im) roi mode cs st = (Return (Some out), st') ->
  exists b,
    blur_result gauss_px pil_px mode cs (region_of a roi) = Return (Some b)
    /\ match roi with
       | Some (x, y, w, h) =>
           out = im
           /\ heap st' = <[im := paste a x y b]> (heap st)
           /\ heap st' !! im = Some (paste a x y b)
           /\ length <$> paste a x y b = length <$> a
           /\ forall r c, (0 <= r)%Z -> (0 <= c)%Z ->
                pixel_at (paste a x y b) r c
                = if decide (y <= r < y + h /\ x <= c < x + w)%Z
                  then pixel_at b (r - y) (c - x)
                  else pixel_at a r c
       | None =>
           out = length (heap st) /\ out <> im
           /\ heap st' = heap st ++ [b]
           /\ heap st' !! im = Some a
       end.
Proof.
  intros Ha Hr Hb Hrun.
  destruct (apply_blur_in_bounds gauss_px pil_px st im a roi mode cs Ha Hb)
    as [lg Hrun'].
  simpl in Hrun'. rewrite Hrun' in Hrun. clear Hrun'.
  pose proof (region_lengths a roi Hr Hb) as Hu.
  pose proof (blur_result_lengths gauss_px pil_px mode cs (region_of a roi)) as Hshape.
  unfold store_after in Hrun.
  destruct (blur_result gauss_px pil_px mode cs (region_of a roi))
    as [[b|]|e]; try (simpl in Hrun; discriminate).
  specialize (Hshape b Hu eq_refl).
  exists b. split; [done |].
  assert (Him : (im < length (heap st))%nat) by (by eapply lookup_lt_Some).
  destruct roi as [[[[x y] w] h]|]; simpl in *.
  - assert (Hl : length <$> b = replicate (Z.to_nat h) (Z.to_nat w))
      by (by rewrite Hshape, (crop_lengths a x y w h Hr Hb)).
    destruct (same_shape (crop a x y w h) b); simpl in Hrun; [| discriminate].
    injection Hrun as <- <-. simpl.
    repeat split.
    + by apply list_lookup_insert_eq.
    + by apply (paste_lengths a x y w h).
    + intros r c Hr0 Hc0. by apply (paste_pixel a x y w h).
  - injection Hrun as <- <-. simpl.
    repeat split; [lia |]. by apply lookup_app_l_Some.
Qed.

Lemma apply_blur_writes_in_place_witness :
  exists b,
    blur_result unit_gauss unit_pil "Motion" example_settings
      (region_of small_frame (Some (1, 0, 2, 2)%Z)) = Return (Some b)
    /\ heap (snd (apply_blur unit_gauss unit_pil (Some 0%nat) (Some (1, 0, 2, 2)%Z)
                    "Motion" example_settings small_state)) !! 0%nat
       = Some (paste small_frame 1 0 b).
Proof.
  destruct (apply_blur_writes_in_place unit_gauss unit_pil small_state
              (snd (apply_blur unit_gauss unit_pil (Some 0%nat) (Some (1, 0, 2, 2)%Z)
                      "Motion" example_settings small_state))
              0%nat 0%nat small_frame (Some (1, 0, 2, 2)%Z) "Motion" example_settings)
    as (b & Hb & _ & _ & Hcell & _).
  - reflexivity.
  - repeat constructor.
  - reflexivity.
  - reflexivity.
  - exists b. by split.
Defined.

(** C2 as stated fails: a successful Motion blur of the one-pixel region of
    [grey_frame] leaves other bytes in the caller's array. *)
Lemma apply_blur_writes_in_place_counterexample :
  in_bounds grey_frame (Some (0, 0, 1, 1)%Z)
  /\ fst (apply_blur unit_gauss unit_pil (Some 0%nat) (Some (0, 0, 1, 1)%Z)
            "Motion" example_settings grey_state)
     = Return (Some 0%nat)
  /\ heap grey_state !! 0%nat = Some [[(10, 10, 10)%Z]]
  /\ heap (snd (apply_blur unit_gauss unit_pil (Some 0%nat) (Some (0, 0, 1, 1)%Z)
                  "Motion" example_settings grey_state)) !! 0%nat
     = Some [[(150, 150, 150)%Z]].
Proof. repeat split. Qed.

(** ** The kernel size of Custom mode *)




(** ** The Motion kernel *)

Lemma reflect101_loop_range (fuel : nat) (p len : Z) :
  (0 < len)%Z -> (0 <= reflect101_loop fuel p len < len)%Z.
Proof.
  revert p. induction fuel as [|fuel IH]; intros p Hlen; simpl; [lia |].
  destruct ((0 <=? p)%Z && (p <? len)%Z) eqn:E.
  - apply andb_true_iff in E as [E1 E2]. lia.
  - destruct (p <? 0)%Z; by apply IH.
Qed.

Lemma borderInterpolate_range (p len : Z) :
  (0 < len)%Z -> (0 <= borderInterpolate p len < len)%Z.
Proof.
  intros Hlen. unfold borderInterpolate.
  destruct (len =? 1)%Z; [lia |]. by apply reflect101_loop_range.
Qed.

Lemma pixel_at_constant (h w : nat) (v i j : Z) :
  (0 <= i < Z.of_nat h)%Z -> (0 <= j < Z.of_nat w)%Z ->
  pixel_at (constant_frame h w v) i j = (v, v, v).
Proof.
  intros Hi Hj. unfold pixel_at, constant_frame.
  rewrite lookup_replicate_2 by lia. by rewrite lookup_replicate_2 by lia.
Qed.

Lemma tabulate_constant (h w : nat) (f : nat -> nat -> pixel) (px : pixel) :
  (forall r c, (r < h)%nat -> (c < w)%nat -> f r c = px) ->
  tabulate h w f = replicate h (replicate w px).
Proof.
  intros Hf. unfold tabulate. apply list_eq. intros i.
  rewrite list_lookup_fmap.
  destruct (decide (i < h)%nat) as [Hi|Hi].
  - rewrite lookup_seq_lt, lookup_replicate_2 by done. simpl. f_equal.
    apply list_eq. intros j. rewrite list_lookup_fmap.
    destruct (decide (j < w)%nat) as [Hj|Hj].
    + rewrite lookup_seq_lt, lookup_replicate_2 by done. simpl. f_equal. by apply Hf.
    + rewrite lookup_seq_ge by lia. symmetry. apply lookup_replicate_None. lia.
  - rewrite lookup_seq_ge by lia. symmetry. apply lookup_replicate_None. lia.
Qed.

Lemma shape_constant (h w : nat) (v : Z) :
  (0 < h)%nat ->
  shape0 (constant_frame h w v) = Z.of_nat h /\ shape1 (constant_frame h w v) = Z.of_nat w.
Proof.
  intros Hh. unfold shape0, shape1, constant_frame. rewrite length_replicate.
  split; [done |]. destruct h; [lia |]. simpl. by rewrite length_replicate.
Qed.


Lemma length_constant (h w : nat) (v : Z) : length (constant_frame h w v) = h.
Proof. apply length_replicate. Qed.

Lemma width_constant (h w : nat) (v : Z) :
  (0 < h)%nat -> width_of (constant_frame h w v) = w.
Proof.
  intros Hh. unfold width_of. destruct (shape_constant h w v Hh) as [_ ->]. lia.
Qed.

Lemma filter2D_chan_constant (h w : nat) (v : Z) (k : kernel) (r c ch : nat) :
  (0 < h)%nat -> (0 < w)%nat ->
  k = [replicate 15 1%Z] \/ k = replicate 15 [1%Z] ->
  filter2D_chan (constant_frame h w v) k r c ch = saturate (15 * v).
Proof.
  intros Hh Hw Hk.
  destruct (shape_constant h w v Hh) as [H0 H1].
  unfold filter2D_chan. rewrite H0, H1.
  destruct Hk as [-> | ->];
    cbn -[borderInterpolate pixel_at Z.of_nat Z.add Z.sub Z.mul saturate chan];
    rewrite !pixel_at_constant by (apply borderInterpolate_range; lia);
    f_equal; destruct ch as [|[|ch]]; simpl chan; lia.
Qed.

Lemma filter2D_constant (h w : nat) (v : Z) (k : kernel) :
  (0 < h)%nat -> (0 < w)%nat ->
  k = [replicate 15 1%Z] \/ k = replicate 15 [1%Z] ->
  filter2D (constant_frame h w v) k
  = Return (constant_frame h w (saturate (15 * v))).
Proof.
  intros Hh Hw Hk.
  destruct (shape_constant h w v Hh) as [H0 H1].
  unfold filter2D, is_empty. rewrite H0, H1.
  replace (Z.of_nat h =? 0)%Z with false by (symmetry; apply Z.eqb_neq; lia).
  replace (Z.of_nat w =? 0)%Z with false by (symmetry; apply Z.eqb_neq; lia).
  simpl orb. cbv iota. f_equal.
  rewrite length_constant, width_constant by done.
  apply tabulate_constant. intros r c _ _.
  by rewrite !filter2D_chan_constant.
Qed.

(** The two kernels of Motion mode, and what they do to three small
    frames. *)
Lemma motion_kernel_examples :
  set_kernel_row 0 (np_ones 15) (np_zeros 1 15) = [replicate 15 1%Z]
  /\ set_kernel_col 0 (np_ones 15) (np_zeros 15 1) = replicate 15 [1%Z]
  /\ blur_result unit_gauss unit_pil "Motion" example_settings
       [[(10, 20, 30); (10, 20, 30)]; [(10, 20, 30); (10, 20, 30)]]%Z
     = Return (Some [[(150, 255, 255); (150, 255, 255)];
                     [(150, 255, 255); (150, 255, 255)]]%Z)
  /\ fst (apply_blur unit_gauss unit_pil (Some 0%nat) None "Motion"
            example_settings grey_state)
     = Return (Some 1%nat)
  /\ heap (snd (apply_blur unit_gauss unit_pil (Some 0%nat) None "Motion"
                  example_settings grey_state)) !! 1%nat
     = Some [[(150, 150, 150)%Z]].
Proof. repeat split. Qed.

(** C9.  The kernel built for Motion mode is 1 x 15 (horizontal) or
    15 x 1 (vertical) with every weight 1, and nothing divides by 15: the
    filter returns the saturated sum of 15 pixels along the direction, not
    their average.  On a frame whose pixels all have the value [v] every
    output pixel is [min 255 (15 * v)] where the average is [v]: 150 for a
    frame of 10s. *)
Theorem motion_blur_sums_fifteen_pixels
    (gauss_px : ndarray -> Z -> Q -> nat -> nat -> pixel)
    (pil_px : ndarray -> Q -> nat -> nat -> pixel)
    (h w : nat) (v : Z) (d : string) (cs : gmap string pyval) :
  (0 < h)%nat -> (0 < w)%nat ->
  d = "horizontal" \/ d = "vertical" ->
  blur_result gauss_px pil_px "Motion" (<["direction" := PStr d]> cs)
    (constant_frame h w v)
  = Return (Some (constant_frame h w (saturate (15 * v)))).
Proof.
  intros Hh Hw Hd.
  unfold blur_result, blur_by_mode.
  cbn -[filter2D constant_frame lookup insert getitem].
  unfold getitem. rewrite lookup_insert_eq.
  unfold mbind, M_bind, mret, M_ret, lift, raise.
  destruct Hd as [-> | ->]; cbn -[filter2D constant_frame saturate Z.mul].
  - rewrite (filter2D_constant h w v) by (done || by left). done.
  - rewrite (filter2D_constant h w v) by (done || by right). done.
Qed.

Lemma motion_blur_sums_fifteen_pixels_witness :
  blur_result unit_gauss unit_pil "Motion"
    (<["direction" := PStr "horizontal"]> example_settings) [[(10, 10, 10)%Z]]
  = Return (Some [[(150, 150, 150)%Z]]).
Proof.
  apply (motion_blur_sums_fifteen_pixels unit_gauss unit_pil 1 1 10 "horizontal"
           example_settings).
  - lia.
  - lia.
  - by left.
Defined.

(** ** The decorator and the per-file functions *)

Section Transformers.

Variable gauss_px : ndarray -> Z -> Q -> nat -> nat -> pixel.
Variable pil_px : ndarray -> Q -> nat -> nat -> pixel.
Variable writable : string -> bool.
Variable has_encoder : string -> bool.

(** A decorated function never raises. *)
Lemma handle_exceptions_returns {A} (name arg0 : string) (surplus : list pyval)
    (func : M (option A)) (st : state) :
  exists r st', handle_exceptions name arg0 surplus func st = (Return r, st').
Proof.
  unfold handle_exceptions. run.
  destruct surplus; [destruct (func _) as [[r|e] st1] |]; simpl; eauto.
Qed.

(** What it returns is what the function returned, or [None]. *)
Lemma handle_exceptions_result {A} (name arg0 : string) (func : M (option A))
    (P : option A -> Prop) (st : state) :
  P None ->
  (forall st0 r st1, func st0 = (Return r, st1) -> P r) ->
  exists r st', handle_exceptions name arg0 [] func st = (Return r, st') /\ P r.
Proof.
  intros HN Hf. unfold handle_exceptions. run.
  destruct (func _) as [[r|e] st1] eqn:E; simpl; eauto.
Qed.

(** Surplus positional arguments: the call is rejected, the result is
    [None]. *)
Lemma handle_exceptions_surplus {A} (name arg0 : string) (v : pyval)
    (surplus : list pyval) (func : M (option A)) (st : state) :
  fst (handle_exceptions name arg0 (v :: surplus) func st) = Return None.
Proof. reflexivity. Qed.

(** [process_video] past the decorator: if the body returns, it returns
    the output path - also when writing the file failed. *)
Lemma process_video_body_result (path : string) (roi : option roi_t)
    (mode : string) (cs : gmap string pyval) (start_time : Q)
    (end_time : option Q) (st : state) (r : option string) (st' : state) :
  process_video_body gauss_px pil_px writable path roi mode cs
    start_time end_time st = (Return r, st') ->
  r = Some (output_directory +:+ basename path).
Proof.
  unfold process_video_body, VideoFileClip. run.
  destruct (files st !! path) as [[| c |]|]; simpl; try discriminate.
  destruct (window_clip _ _ _ _) as [bc|e]; simpl; [| discriminate].
  destruct (audio c) as [au|]; simpl.
  - destruct (truthy_time _); simpl.
    + destruct (audio_subclip _ _ _) as [au'|e]; simpl; [| discriminate].
      destruct (write_videofile _ _ _) as [[u|e] st1]; simpl; congruence.
    + destruct (write_videofile _ _ _) as [[u|e] st1]; simpl; congruence.
  - destruct (write_videofile _ _ _) as [[u|e] st1]; simpl; congruence.
Qed.

End Transformers.

(** ** Images in a batch *)

(** C1.  The dispatcher does choose [process_image] for a path ending in
    .jpg, .jpeg or .png, but it passes it the six arguments of
    [process_video]; [process_image] declares four, the call is rejected
    inside the decorator, and the result is [None] whatever the file holds.
    Called with its own four arguments on a readable image, [process_image]
    returns the path; the same image submitted through the batch is
    missing from the result. *)
Theorem batch_drops_every_image :
  (forall gauss_px pil_px writable has_encoder path roi mode cs
          (start_time : Q) (end_time : option Q) st,
     fst (process_image gauss_px pil_px writable has_encoder path roi mode cs
            [PFloat start_time; time_arg end_time] st)
     = Return None)
  /\ fst (process_image unit_gauss unit_pil always_ok always_ok "a.jpg" None
            "Motion" example_settings [] media_state)
     = Return (Some "a.jpg")
  /\ is_image_path "a.jpg" = true
  /\ fst (submit unit_gauss unit_pil always_ok always_ok None "Motion"
            example_settings 0%Q None "a.jpg" media_state)
     = Return None
  /\ fst (process_media_in_parallel unit_gauss unit_pil always_ok always_ok
            in_submission_order ["a.jpg"] None "Motion" example_settings
            0%Q None media_state)
     = Return [].
Proof.
  split; [| repeat split].
  intros. apply handle_exceptions_surplus.
Qed.

(** ** A video that cannot be written *)

(** C3.  When [write_videofile] raises, [process_video] logs the error and
    goes on to return the output path: whether or not the destination can
    be written, the result for "v.mp4" is "output/v.mp4".  With a
    destination that cannot be written no file exists at that path after
    the call, and the batch still lists the path among its successes. *)
Theorem video_write_failure_reports_path :
  (forall writable,
     fst (process_video unit_gauss unit_pil writable "v.mp4" None "Motion"
            example_settings 0%Q None [] media_state)
     = Return (Some "output/v.mp4"))
  /\ files (snd (process_video unit_gauss unit_pil read_only "v.mp4" None
                   "Motion" example_settings 0%Q None [] media_state))
       !! "output/v.mp4" = None
  /\ (ERROR, "Error writing video file")
       ∈ logs (snd (process_video unit_gauss unit_pil read_only "v.mp4" None
                      "Motion" example_settings 0%Q None [] media_state))
  /\ fst (process_media_in_parallel unit_gauss unit_pil read_only always_ok
            in_submission_order ["v.mp4"] None "Motion" example_settings
            0%Q None media_state)
     = Return ["output/v.mp4"].
Proof.
  split; [| split; [| split]].
  - intros writable.
    unfold process_video, handle_exceptions, process_video_body. run.
    unfold write_videofile. destruct (writable _); reflexivity.
  - reflexivity.
  - vm_compute. set_solver.
  - reflexivity.
Qed.

(** ** The batch *)

Section Batch.

Variable gauss_px : ndarray -> Z -> Q -> nat -> nat -> pixel.
Variable pil_px : ndarray -> Q -> nat -> nat -> pixel.
Variable writable : string -> bool.
Variable has_encoder : string -> bool.

(** A task of the batch always returns, and what it returns is [None]
    or a path that counts as true. *)
Lemma submit_returns (roi : option roi_t) (mode : string)
    (cs : gmap string pyval) (start_time : Q) (end_time : option Q)
    (path : string) (st : state) :
  exists r st',
    submit gauss_px pil_px writable has_encoder roi mode cs start_time
      end_time path st = (Return r, st')
    /\ (r = None \/ truthy r = true).
Proof.
  unfold submit. destruct (is_image_path path).
  - destruct (handle_exceptions_returns "process_image" path
                [PFloat start_time; time_arg end_time]
                (process_image_body gauss_px pil_px writable has_encoder
                   path roi mode cs) st) as (r & st' & Hrun).
    pose proof (handle_exceptions_surplus "process_image" path
                  (PFloat start_time) [time_arg end_time]
                  (process_image_body gauss_px pil_px writable has_encoder
                     path roi mode cs) st) as Hnone.
    unfold process_image. rewrite Hrun in Hnone |- *. simpl in Hnone.
    injection Hnone as ->. eauto.
  - unfold process_video. apply handle_exceptions_result; [by left |].
    intros st0 r st1 Hbody. right.
    by rewrite (process_video_body_result _ _ _ _ _ _ _ _ _ _ _ _ Hbody).
Qed.

Lemma collect_run (futures : list (M (option string))) :
  Forall (fun f => forall st, exists r st',
            f st = (Return r, st') /\ (r = None \/ truthy r = true)) futures ->
  forall (acc : list string) (st : state),
  exists results st',
    run_futures futures st = (Return results, st')
    /\ collect futures acc st = (Return (acc ++ omap id results), st')
    /\ length results = length futures
    /\ (length (omap id results) + failures results = length futures)%nat.
Proof.
  induction 1 as [|f futures Hf _ IH]; intros acc st.
  - exists [], st. simpl. by rewrite app_nil_r.
  - destruct (Hf st) as (r & st1 & Hrun & Hr).
    assert (Hacc : (if truthy r then acc ++ [default "" r] else acc)
                   = acc ++ omap id [r]).
    { destruct Hr as [-> | Ht]; [by rewrite app_nil_r |].
      rewrite Ht. destruct r; [done | discriminate]. }
    destruct (IH (acc ++ omap id [r]) st1) as (results & st' & Hrs & Hc & Hl & Hn).
    exists (r :: results), st'. simpl. run. rewrite Hrun, Hrs, Hacc, Hc. simpl.
    repeat split.
    + f_equal. rewrite <- app_assoc. f_equal. by destruct r.
    + by rewrite Hl.
    + unfold omap in *. destruct r; simpl in *; lia.
Qed.

End Batch.

(** C5.  Whatever the order in which the tasks complete, a batch of N
    paths returns (it does not raise) the paths of the tasks that gave a
    result, in completion order: with M tasks returning [None], exactly
    N - M paths. *)
Theorem batch_returns_one_path_per_success
    (gauss_px : ndarray -> Z -> Q -> nat -> nat -> pixel)
    (pil_px : ndarray -> Q -> nat -> nat -> pixel)
    (writable has_encoder : string -> bool)
    (as_completed : forall A : Type, list A -> list A)
    (media_paths : list string) (roi : option roi_t) (mode : string)
    (cs : gmap string pyval) (start_time : Q) (end_time : option Q)
    (st : state) :
  (forall (A : Type) (l : list A), as_completed A l ≡ₚ l) ->
  exists results output_paths st1 st',
    run_futures
      (as_completed _
         (submit gauss_px pil_px writable has_encoder roi mode cs start_time
            end_time <$> media_paths))
      (State (heap st) (logs st ++ [(INFO, "Starting parallel media processing")])
         (files st))
    = (Return results, st1)
    /\ process_media_in_parallel gauss_px pil_px writable has_encoder as_completed
         media_paths roi mode cs start_time end_time st
       = (Return output_paths, st')
    /\ output_paths = omap id results
    /\ length results = length media_paths
    /\ length output_paths = (length media_paths - failures results)%nat.
Proof.
  intros Hperm.
  set (futures := submit gauss_px pil_px writable has_encoder roi mode cs
                    start_time end_time <$> media_paths).
  assert (Hgood : Forall (fun f => forall st, exists r st',
                    f st = (Return r, st') /\ (r = None \/ truthy r = true))
                    (as_completed _ futures)).
  { apply Forall_forall. intros f Hin. rewrite (Hperm _ futures) in Hin.
    apply list_elem_of_fmap in Hin as (path & -> & _).
    intros st0. apply submit_returns. }
  destruct (collect_run _ Hgood []
              (State (heap st) (logs st ++ [(INFO, "Starting parallel media processing")])
                 (files st)))
    as (results & st1 & Hrs & Hc & Hl & Hn).
  assert (Hlen : length (as_completed _ futures) = length media_paths).
  { rewrite (Hperm _ futures). unfold futures. by rewrite length_fmap. }
  exists results, (omap id results), st1.
  eexists. split; [exact Hrs |]. split.
  - unfold process_media_in_parallel. run. fold futures. rewrite Hc. simpl.
    reflexivity.
  - repeat split; lia.
Qed.

Lemma batch_returns_one_path_per_success_witness :
  exists results,
    length results = 3%nat
    /\ failures results = 2%nat
    /\ fst (process_media_in_parallel unit_gauss unit_pil always_ok always_ok
              in_reverse_order ["a.jpg"; "v.mp4"; "missing.mp4"] None "Motion"
              example_settings 0%Q None media_state)
       = Return (omap id results)
    /\ length (omap id results) = 1%nat.
Proof.
  destruct (batch_returns_one_path_per_success unit_gauss unit_pil always_ok
              always_ok in_reverse_order ["a.jpg"; "v.mp4"; "missing.mp4"]
              None "Motion" example_settings 0%Q None media_state)
    as (results & out & st1 & st' & Hrs & Hrun & Hout & Hl & Hn).
  - intros A l. unfold in_reverse_order. apply reverse_Permutation.
  - exists results. subst out. rewrite Hrun.
    apply (f_equal fst) in Hrs. vm_compute in Hrs. injection Hrs as <-.
    repeat split.
Defined.

(** ** The time window of a video *)

Section Window.

Variable f : ndarray -> option ndarray.

Lemma Qlt_bool_false (a b : Q) : (b <= a)%Q -> Qlt_bool a b = false.
Proof.
  intros H. unfold Qlt_bool. apply negb_false_iff. by apply Qle_bool_iff.
Qed.

(** The clip handed to the encoder: as long as the window, and its frame
    at [t] is the filtered source frame at [start_time + t]. *)
Lemma window_clip_frames (c : clip ndarray) (start_time end_time : Q)
    (bc : clip (option ndarray)) :
  (0 <= start_time)%Q -> (0 <= end_time)%Q ->
  window_clip f c start_time end_time = Return bc ->
  (duration bc == end_time - start_time)%Q
  /\ fps bc = fps c
  /\ forall t, exists t', (t' == t + start_time)%Q
                          /\ get_frame bc t = f (get_frame c t').
Proof.
  intros Hs He. unfold window_clip.
  destruct (Qeq_bool start_time 0 && Qeq_bool end_time (duration c)) eqn:Efull.
  - apply andb_true_iff in Efull as [E0 E1].
    apply Qeq_bool_iff in E0, E1.
    unfold fl_image. destruct (f (get_frame c 0%Q)); [| discriminate].
    intros [= <-]. simpl. split; [lra | split; [done |]].
    intros t. exists t. split; [lra | done].
  - unfold subclip, subclip_window.
    rewrite (Qlt_bool_false start_time 0 Hs), (Qlt_bool_false end_time 0 He).
    destruct (Qlt_bool (duration c) start_time); [discriminate |].
    unfold fl_image. simpl.
    destruct (f (get_frame c (0 + start_time)%Q)); [| discriminate].
    intros [= <-]. simpl. split; [lra | split; [done |]].
    intros t. exists (t + start_time)%Q. split; [lra | done].
Qed.

End Window.



(** * Further properties of the code *)

(** ** [apply_blur]: what it leaves alone, and when it gives a frame *)

Section ApplyBlurMore.

Variable gauss_px : ndarray -> Z -> Q -> nat -> nat -> pixel.
Variable pil_px : ndarray -> Q -> nat -> nat -> pixel.

(** Without an image, and with a reference to no array, the result is
    [None] and only the log grows. *)
Lemma apply_blur_no_image (roi : option roi_t) (mode : string)
    (cs : gmap string pyval) (st : state) :
  exists lg,
    apply_blur gauss_px pil_px None roi mode cs st
    = (Return None, State (heap st) (logs st ++ lg) (files st)).
Proof.
  unfold apply_blur, handle_exceptions, apply_blur_body. run.
  rewrite <- !app_assoc. eexists. reflexivity.
Qed.

Lemma apply_blur_dangling (im : loc) (roi : option roi_t) (mode : string)
    (cs : gmap string pyval) (st : state) :
  heap st !! im = None ->
  exists lg,
    apply_blur gauss_px pil_px (Some im) roi mode cs st
    = (Return None, State (heap st) (logs st ++ lg) (files st)).
Proof.
  intros Hnone. unfold apply_blur, handle_exceptions, apply_blur_body. run.
  rewrite Hnone. simpl. rewrite <- !app_assoc. eexists. reflexivity.
Qed.

(** When the filter gives an array, so does [apply_blur]. *)
Lemma apply_blur_success (st : state) (im : loc) (a b : ndarray)
    (roi : option roi_t) (mode : string) (cs : gmap string pyval) :
  heap st !! im = Some a ->
  rectangular a ->
  in_bounds a roi ->
  blur_result gauss_px pil_px mode cs (region_of a roi) = Return (Some b) ->
  exists lg,
    apply_blur gauss_px pil_px (Some im) roi mode cs st
    = match roi with
      | Some (x, y, w, h) =>
          (Return (Some im),
           State (<[im := paste a x y b]> (heap st)) (logs st ++ lg) (files st))
      | None =>
          (Return (Some (length (heap st))),
           State (heap st ++ [b]) (logs st ++ lg) (files st))
      end.
Proof.
  intros Ha Hr Hb Hres.
  destruct (apply_blur_in_bounds gauss_px pil_px st im a roi mode cs Ha Hb)
    as [lg Hrun].
  simpl in Hrun. rewrite Hres in Hrun. exists lg. rewrite Hrun.
  pose proof (blur_result_lengths gauss_px pil_px mode cs (region_of a roi) b
                (region_lengths a roi Hr Hb) Hres) as Hshape.
  destruct roi as [[[[x y] w] h]|]; simpl in *; [| done].
  unfold same_shape. rewrite bool_decide_eq_true_2 by done. done.
Qed.

(** The Gaussian modes with fixed kernels need no settings. *)
Lemma fixed_kernel_result (mode : string) (cs : gmap string pyval) (sec : ndarray) :
  mode = "Heavy" \/ mode = "Slight" ->
  is_empty sec = false ->
  exists b, blur_result gauss_px pil_px mode cs sec = Return (Some b).
Proof.
  intros [-> | ->] He; unfold blur_result, blur_by_mode; simpl; run;
    unfold GaussianBlur; rewrite He; simpl; eauto.
Qed.

Lemma region_not_empty (a : ndarray) (roi : option roi_t) :
  rectangular a -> in_bounds a roi -> is_empty a = false ->
  is_empty (region_of a roi) = false.
Proof.
  intros Hr Hb He. destruct roi as [[[[x y] w] h]|]; simpl in *; [| done].
  destruct (crop_shape a x y w h Hr Hb) as [H0 H1].
  apply (out_of_bounds_false a) in Hb.
  unfold is_empty. rewrite H0, H1.
  apply orb_false_iff. split; apply Z.eqb_neq; lia.
Qed.

Lemma missing_key_result (mode key : string) (cs : gmap string pyval) (sec : ndarray) :
  (mode, key) ∈ [("Custom", "ksize"); ("Custom", "sigma");
                 ("Motion", "direction"); ("Radial", "angle")] ->
  cs !! key = None ->
  exists e, blur_result gauss_px pil_px mode cs sec = Raise e.
Proof.
  intros Hin Hnone.
  repeat (apply elem_of_cons in Hin as [[= -> ->] | Hin]);
    [| | | | by apply elem_of_nil in Hin];
    unfold blur_result, blur_by_mode; simpl; unfold getitem; run;
    rewrite ?Hnone; simpl; eauto.
  destruct (cs !! "ksize"); simpl; eauto.
Qed.

End ApplyBlurMore.

(** What a call of [apply_blur] can change. *)
Lemma apply_blur_effects
    (gauss_px : ndarray -> Z -> Q -> nat -> nat -> pixel)
    (pil_px : ndarray -> Q -> nat -> nat -> pixel)
    (image : option loc) (roi : option roi_t) (mode : string)
    (cs : gmap string pyval) (st : state) :
  exists r st' lg,
    apply_blur gauss_px pil_px image roi mode cs st = (Return r, st')
    /\ files st' = files st
    /\ logs st' = logs st ++ lg
    /\ (length (heap st) <= length (heap st'))%nat
    /\ (forall j, image <> Some j -> (j < length (heap st))%nat ->
          heap st' !! j = heap st !! j)
    /\ (forall out, r = Some out -> is_Some (heap st' !! out)).
Proof.
  destruct image as [im|].
  2: { destruct (apply_blur_no_image gauss_px pil_px roi mode cs st) as [lg ->].
       eexists _, _, lg. repeat split; simpl; try done. }
  destruct (heap st !! im) as [a|] eqn:Ha.
  2: { destruct (apply_blur_dangling gauss_px pil_px im roi mode cs st Ha) as [lg ->].
       eexists _, _, lg. repeat split; simpl; try done. }
  assert (Him : (im < length (heap st))%nat) by (by eapply lookup_lt_Some).
  assert (Hcases : in_bounds a roi \/ exists r, roi = Some r /\ roi_out_of_bounds a r = true).
  { destruct roi as [r|]; simpl; [| by left].
    destruct (roi_out_of_bounds a r) eqn:E; [right; eauto | by left]. }
  destruct Hcases as [Hb | (r & -> & Hbad)].
  - destruct (apply_blur_in_bounds gauss_px pil_px st im a roi mode cs Ha Hb)
      as [lg Hrun].
    simpl in Hrun. rewrite Hrun. eexists _, _, lg.
    split; [reflexivity |]. simpl. split; [done |]. split; [done |].
    unfold store_after.
    destruct (blur_result _ _ _ _ _) as [[b|]|e]; simpl; try (repeat split; done).
    destruct roi as [[[[x y] w] h]|]; simpl.
    + destruct (same_shape _ _); simpl; try (repeat split; done).
      rewrite length_insert. repeat split; [lia | |].
      * intros j Hj _. apply list_lookup_insert_ne. congruence.
      * intros out [= <-]. rewrite list_lookup_insert_eq by done. eauto.
    + rewrite length_app. simpl. repeat split; [lia | |].
      * intros j _ Hj. by apply lookup_app_l.
      * intros out [= <-]. rewrite lookup_app_r by lia.
        rewrite Nat.sub_diag. simpl. eauto.
  - rewrite (apply_blur_out_of_bounds gauss_px pil_px st im a r mode cs Ha Hbad).
    eexists _, _, _. split; [reflexivity |]. simpl.
    repeat split; try done. intros out [= <-]. rewrite Ha. eauto.
Qed.

(** X1.  [apply_blur] never raises and never touches the file system.  In
    the store it changes at most the array it was given: every other array
    is as before, no array disappears, and a reference it returns points
    to an array. *)
Theorem apply_blur_frame_rule
    (gauss_px : ndarray -> Z -> Q -> nat -> nat -> pixel)
    (pil_px : ndarray -> Q -> nat -> nat -> pixel)
    (image : option loc) (roi : option roi_t) (mode : string)
    (cs : gmap string pyval) (st : state) :
  exists r st' lg,
    apply_blur gauss_px pil_px image roi mode cs st = (Return r, st')
    /\ files st' = files st
    /\ logs st' = logs st ++ lg
    /\ (length (heap st) <= length (heap st'))%nat
    /\ (forall j, image <> Some j -> (j < length (heap st))%nat ->
          heap st' !! j = heap st !! j)
    /\ (forall out, r = Some out -> is_Some (heap st' !! out)).
Proof. apply apply_blur_effects. Qed.

(** X2.  Custom mode without "ksize" or "sigma", Motion mode without
    "direction" and Radial mode without "angle" in the settings: the
    missing key is caught, [apply_blur] returns no frame and the store is
    as before. *)
Theorem apply_blur_missing_setting
    (gauss_px : ndarray -> Z -> Q -> nat -> nat -> pixel)
    (pil_px : ndarray -> Q -> nat -> nat -> pixel)
    (st : state) (im : loc) (a : ndarray) (roi : option roi_t)
    (mode key : string) (cs : gmap string pyval) :
  heap st !! im = Some a ->
  in_bounds a roi ->
  (mode, key) ∈ [("Custom", "ksize"); ("Custom", "sigma");
                 ("Motion", "direction"); ("Radial", "angle")] ->
  cs !! key = None ->
  exists st',
    apply_blur gauss_px pil_px (Some im) roi mode cs st = (Return None, st')
    /\ heap st' = heap st /\ files st' = files st.
Proof.
  intros Ha Hb Hin Hnone.
  apply (apply_blur_no_result _ _ st im a roi mode cs Ha Hb).
  intros b.
  destruct (missing_key_result gauss_px pil_px mode key cs (region_of a roi) Hin Hnone)
    as [e ->].
  discriminate.
Qed.

Lemma apply_blur_missing_setting_witness :
  exists st',
    apply_blur unit_gauss unit_pil (Some 0%nat) (Some (1, 0, 2, 2)%Z) "Radial"
      (delete "angle" example_settings) small_state = (Return None, st')
    /\ heap st' = heap small_state /\ files st' = files small_state.
Proof.
  apply (apply_blur_missing_setting unit_gauss unit_pil small_state 0%nat
           small_frame (Some (1, 0, 2, 2)%Z) "Radial" "angle"
           (delete "angle" example_settings)).
  - reflexivity.
  - reflexivity.
  - set_solver.
  - reflexivity.
Defined.

(** X3.  Heavy and Slight need nothing from the settings: on a frame with
    at least one pixel, with a region that is absent or inside the frame,
    they always give a frame, and it has the dimensions of the input. *)
Theorem apply_blur_fixed_modes_succeed
    (gauss_px : ndarray -> Z -> Q -> nat -> nat -> pixel)
    (pil_px : ndarray -> Q -> nat -> nat -> pixel)
    (st : state) (im : loc) (a : ndarray) (roi : option roi_t)
    (mode : string) (cs : gmap string pyval) :
  heap st !! im = Some a ->
  rectangular a ->
  is_empty a = false ->
  in_bounds a roi ->
  mode = "Heavy" \/ mode = "Slight" ->
  exists out st' res,
    apply_blur gauss_px pil_px (Some im) roi mode cs st = (Return (Some out), st')
    /\ heap st' !! out = Some res
    /\ length <$> res = length <$> a.
Proof.
  intros Ha Hr He Hb Hm.
  destruct (fixed_kernel_result gauss_px pil_px mode cs (region_of a roi) Hm
              (region_not_empty a roi Hr Hb He)) as [b Hres].
  destruct (apply_blur_success gauss_px pil_px st im a b roi mode cs Ha Hr Hb Hres)
    as [lg Hrun].
  pose proof (blur_result_lengths gauss_px pil_px mode cs (region_of a roi) b
                (region_lengths a roi Hr Hb) Hres) as Hshape.
  assert (Him : (im < length (heap st))%nat) by (by eapply lookup_lt_Some).
  destruct roi as [[[[x y] w] h]|]; simpl in *.
  - eexists _, _, _. split; [exact Hrun |]. simpl.
    split; [by apply list_lookup_insert_eq |].
    apply (paste_lengths a x y w h); [done | done |].
    by rewrite Hshape, (crop_lengths a x y w h Hr Hb).
  - eexists _, _, _. split; [exact Hrun |]. simpl.
    split; [| exact Hshape].
    rewrite lookup_app_r by lia. by rewrite Nat.sub_diag.
Qed.

Lemma apply_blur_fixed_modes_succeed_witness :
  exists out st' res,
    apply_blur unit_gauss unit_pil (Some 0%nat) (Some (1, 0, 2, 2)%Z) "Heavy"
      ∅ small_state = (Return (Some out), st')
    /\ heap st' !! out = Some res
    /\ length <$> res = length <$> small_frame.
Proof.
  apply (apply_blur_fixed_modes_succeed unit_gauss unit_pil small_state 0%nat
           small_frame (Some (1, 0, 2, 2)%Z) "Heavy" ∅).
  - reflexivity.
  - repeat constructor.
  - reflexivity.
  - reflexivity.
  - by left.
Defined.

Lemma lengths_shape (a b : ndarray) :
  length <$> a = length <$> b -> shape0 a = shape0 b /\ shape1 a = shape1 b.
Proof.
  intros Hl. split.
  - unfold shape0. by rewrite <- (length_fmap length a), Hl, length_fmap.
  - unfold shape1. destruct a, b; simpl in *; try done. by injection Hl as -> _.
Qed.

(** X4.  Whenever [apply_blur] returns a frame, for any mode, settings and
    region (absent, inside the frame or not), the frame returned has
    exactly the height and width of the input. *)
Theorem apply_blur_keeps_dimensions
    (gauss_px : ndarray -> Z -> Q -> nat -> nat -> pixel)
    (pil_px : ndarray -> Q -> nat -> nat -> pixel)
    (st st' : state) (im out : loc) (a : ndarray) (roi : option roi_t)
    (mode : string) (cs : gmap string pyval) :
  heap st !! im = Some a ->
  rectangular a ->
  apply_blur gauss_px pil_px (Some im) roi mode cs st = (Return (Some out), st') ->
  exists res,
    heap st' !! out = Some res
    /\ shape0 res = shape0 a /\ shape1 res = shape1 a.
Proof.
  intros Ha Hr Hrun.
  assert (Him : (im < length (heap st))%nat) by (by eapply lookup_lt_Some).
  assert (Hcases : in_bounds a roi
                   \/ exists r, roi = Some r /\ roi_out_of_bounds a r = true).
  { destruct roi as [r|]; simpl; [| by left].
    destruct (roi_out_of_bounds a r) eqn:E; [right; eauto | by left]. }
  destruct Hcases as [Hb | (r & -> & Hbad)].
  - destruct (apply_blur_in_bounds gauss_px pil_px st im a roi mode cs Ha Hb)
      as [lg Hrun'].
    simpl in Hrun'. rewrite Hrun' in Hrun. clear Hrun'.
    pose proof (blur_result_lengths gauss_px pil_px mode cs (region_of a roi)) as Hshape.
    unfold store_after in Hrun.
    destruct (blur_result gauss_px pil_px mode cs (region_of a roi))
      as [[b|]|e]; try (simpl in Hrun; discriminate).
    specialize (Hshape b (region_lengths a roi Hr Hb) eq_refl).
    destruct roi as [[[[x y] w] h]|]; simpl in *.
    + destruct (same_shape _ _); simpl in Hrun; [| discriminate].
      injection Hrun as <- <-. simpl.
      exists (paste a x y b). split; [by apply list_lookup_insert_eq |].
      apply lengths_shape, (paste_lengths a x y w h); [done | done |].
      by rewrite Hshape, (crop_lengths a x y w h Hr Hb).
    + injection Hrun as <- <-. simpl. exists b.
      split; [| by apply lengths_shape].
      rewrite lookup_app_r by lia. by rewrite Nat.sub_diag.
  - rewrite (apply_blur_out_of_bounds gauss_px pil_px st im a r mode cs Ha Hbad) in Hrun.
    injection Hrun as <- <-. simpl. eauto.
Qed.

Lemma apply_blur_keeps_dimensions_witness :
  exists res,
    heap (snd (apply_blur unit_gauss unit_pil (Some 0%nat) None "Radial"
                 example_settings small_state)) !! 1%nat = Some res
    /\ shape0 res = 2%Z /\ shape1 res = 3%Z.
Proof.
  apply (apply_blur_keeps_dimensions unit_gauss unit_pil small_state
           (snd (apply_blur unit_gauss unit_pil (Some 0%nat) None "Radial"
                   example_settings small_state))
           0%nat 1%nat small_frame None "Radial" example_settings).
  - reflexivity.
  - repeat constructor.
  - reflexivity.
Defined.



(** ** [process_image] called with its own four arguments *)

Section ProcessImage.

Variable gauss_px : ndarray -> Z -> Q -> nat -> nat -> pixel.
Variable pil_px : ndarray -> Q -> nat -> nat -> pixel.
Variable writable : string -> bool.
Variable has_encoder : string -> bool.

(** No image at the path: nothing is decoded, nothing is written. *)
Lemma process_image_unreadable_run (path : string) (roi : option roi_t)
    (mode : string) (cs : gmap string pyval) (st : state) :
  (forall a, files st !! path <> Some (ImageFile a)) ->
  exists lg,
    process_image gauss_px pil_px writable has_encoder path roi mode cs [] st
    = (Return None, State (heap st) (logs st ++ lg) (files st)).
Proof.
  intros Hno.
  unfold process_image, handle_exceptions, process_image_body, imread. run.
  destruct (files st !! path) as [[a| |]|] eqn:E; try (by destruct (Hno a));
    match goal with
    | |- context [apply_blur _ _ None roi mode cs ?s] =>
        destruct (apply_blur_no_image gauss_px pil_px roi mode cs s) as [lg ->]
    end; simpl; rewrite <- !app_assoc; eexists; reflexivity.
Qed.

(** An image at the path: the decoded frame is a new array, and what
    follows depends on what [apply_blur] returns for it. *)
Lemma process_image_readable_run (path : string) (roi : option roi_t)
    (mode : string) (cs : gmap string pyval) (st : state) (a : ndarray)
    (r : option loc) (st2 : state) :
  files st !! path = Some (ImageFile a) ->
  apply_blur gauss_px pil_px (Some (length (heap st))) roi mode cs
    (State (heap st ++ [a])
       (logs st ++ [(DEBUG, "Starting " +:+ "process_image" +:+ " for " +:+ path);
                    (INFO, "Processing image: " +:+ path)])
       (files st))
  = (Return r, st2) ->
  exists lg,
    process_image gauss_px pil_px writable has_encoder path roi mode cs [] st
    = match r with
      | None => (Return None, State (heap st2) (logs st2 ++ lg) (files st2))
      | Some out =>
          match heap st2 !! out with
          | None => (Return None, State (heap st2) (logs st2 ++ lg) (files st2))
          | Some res =>
              if negb (has_encoder path)
              then (Return None, State (heap st2) (logs st2 ++ lg) (files st2))
              else if writable path
              then (Return (Some path),
                    State (heap st2) (logs st2 ++ lg)
                      (<[path := ImageFile res]> (files st2)))
              else (Return (Some path),
                    State (heap st2) (logs st2 ++ lg) (files st2))
          end
      end.
Proof.
  intros Hfile Hblur.
  unfold process_image, handle_exceptions, process_image_body, imread, imwrite. run.
  rewrite Hfile. simpl. rewrite <- !app_assoc. simpl. rewrite Hblur. simpl.
  destruct r as [out|]; simpl.
  - destruct (heap st2 !! out) as [res|]; simpl; [| eexists; reflexivity].
    destruct (has_encoder path); simpl; [| eexists; reflexivity].
    destruct (writable path); simpl; eexists; reflexivity.
  - rewrite <- !app_assoc. eexists. reflexivity.
Qed.

End ProcessImage.

Section ProcessImageProperties.

Variable gauss_px : ndarray -> Z -> Q -> nat -> nat -> pixel.
Variable pil_px : ndarray -> Q -> nat -> nat -> pixel.
Variable writable : string -> bool.
Variable has_encoder : string -> bool.

(** The frame [apply_blur] leaves for a filter result [b]. *)
Lemma process_image_blurred_run (path : string) (roi : option roi_t)
    (mode : string) (cs : gmap string pyval) (st : state) (a b : ndarray) :
  files st !! path = Some (ImageFile a) ->
  rectangular a ->
  in_bounds a roi ->
  blur_result gauss_px pil_px mode cs (region_of a roi) = Return (Some b) ->
  has_encoder path = true ->
  exists st',
    process_image gauss_px pil_px writable has_encoder path roi mode cs [] st
    = (Return (Some path), st')
    /\ files st'
       = if writable path
         then <[path := ImageFile (match roi with
                                   | Some (x, y, _, _) => paste a x y b
                                   | None => b
                                   end)]> (files st)
         else files st.
Proof.
  intros Hfile Hr Hb Hres Henc.
  set (st1 := State (heap st ++ [a])
                (logs st ++ [(DEBUG, "Starting " +:+ "process_image" +:+ " for " +:+ path);
                             (INFO, "Processing image: " +:+ path)])
                (files st)).
  assert (Ha : heap st1 !! length (heap st) = Some a).
  { simpl. rewrite lookup_app_r by lia. by rewrite Nat.sub_diag. }
  destruct (apply_blur_success gauss_px pil_px st1 (length (heap st)) a b roi
              mode cs Ha Hr Hb Hres) as [lg Hrun].
  destruct roi as [[[[x y] w] h]|].
  - destruct (process_image_readable_run gauss_px pil_px writable has_encoder
                path (@Some roi_t (x, y, w, h)) mode cs st a _ _ Hfile Hrun)
      as [lg' ->].
    simpl. rewrite list_lookup_insert_eq
      by (rewrite length_app; simpl; lia).
    rewrite Henc. simpl. destruct (writable path); eauto.
  - destruct (process_image_readable_run gauss_px pil_px writable has_encoder
                path None mode cs st a _ _ Hfile Hrun) as [lg' ->].
    simpl. rewrite lookup_app_r by (rewrite length_app; simpl; lia).
    rewrite length_app. simpl.
    replace (length (heap st) + 1 - (length (heap st) + 1))%nat with 0%nat by lia.
    simpl. rewrite Henc. simpl. destruct (writable path); eauto.
Qed.

Lemma process_image_out_of_bounds_run (path : string) (r : roi_t)
    (mode : string) (cs : gmap string pyval) (st : state) (a : ndarray) :
  files st !! path = Some (ImageFile a) ->
  roi_out_of_bounds a r = true ->
  has_encoder path = true ->
  exists st',
    process_image gauss_px pil_px writable has_encoder path (Some r) mode cs [] st
    = (Return (Some path), st')
    /\ files st'
       = if writable path then <[path := ImageFile a]> (files st) else files st.
Proof.
  intros Hfile Hbad Henc.
  set (st1 := State (heap st ++ [a])
                (logs st ++ [(DEBUG, "Starting " +:+ "process_image" +:+ " for " +:+ path);
                             (INFO, "Processing image: " +:+ path)])
                (files st)).
  assert (Ha : heap st1 !! length (heap st) = Some a).
  { simpl. rewrite lookup_app_r by lia. by rewrite Nat.sub_diag. }
  pose proof (apply_blur_out_of_bounds gauss_px pil_px st1 (length (heap st)) a r
                mode cs Ha Hbad) as Hrun.
  destruct (process_image_readable_run gauss_px pil_px writable has_encoder
              path (Some r) mode cs st a _ _ Hfile Hrun) as [lg' ->].
  simpl. rewrite lookup_app_r by lia. rewrite Nat.sub_diag. simpl.
  rewrite Henc. simpl. destruct (writable path); eauto.
Qed.

End ProcessImageProperties.

(** X6.  When the path holds no decodable image, [process_image] returns
    [None]; no array is created and no file is written. *)
Theorem process_image_unreadable
    (gauss_px : ndarray -> Z -> Q -> nat -> nat -> pixel)
    (pil_px : ndarray -> Q -> nat -> nat -> pixel)
    (writable has_encoder : string -> bool)
    (path : string) (roi : option roi_t) (mode : string)
    (cs : gmap string pyval) (st : state) :
  (forall a, files st !! path <> Some (ImageFile a)) ->
  exists st',
    process_image gauss_px pil_px writable has_encoder path roi mode cs [] st
    = (Return None, st')
    /\ heap st' = heap st /\ files st' = files st.
Proof.
  intros Hno.
  destruct (process_image_unreadable_run gauss_px pil_px writable has_encoder
              path roi mode cs st Hno) as [lg ->].
  eauto.
Qed.

Lemma process_image_unreadable_witness :
  exists st',
    process_image unit_gauss unit_pil always_ok always_ok "v.mp4" None "Heavy"
      example_settings [] media_state
    = (Return None, st')
    /\ heap st' = heap media_state /\ files st' = files media_state.
Proof.
  apply (process_image_unreadable unit_gauss unit_pil always_ok always_ok
           "v.mp4" None "Heavy" example_settings media_state).
  intros a. discriminate.
Defined.



(** X8.  [process_image] does not look at what [cv2.imwrite] returns: when
    the blur succeeded but the file cannot be written, the call still
    returns the path, and the file system is as before. *)
Theorem process_image_ignores_write_status
    (gauss_px : ndarray -> Z -> Q -> nat -> nat -> pixel)
    (pil_px : ndarray -> Q -> nat -> nat -> pixel)
    (writable has_encoder : string -> bool)
    (path : string) (roi : option roi_t) (mode : string)
    (cs : gmap string pyval) (st : state) (a b : ndarray) :
  files st !! path = Some (ImageFile a) ->
  rectangular a ->
  in_bounds a roi ->
  blur_result gauss_px pil_px mode cs (region_of a roi) = Return (Some b) ->
  has_encoder path = true ->
  writable path = false ->
  exists st',
    process_image gauss_px pil_px writable has_encoder path roi mode cs [] st
    = (Return (Some path), st')
    /\ files st' = files st.
Proof.
  intros Hfile Hr Hb Hres Henc Hw.
  destruct (process_image_blurred_run gauss_px pil_px writable has_encoder
              path roi mode cs st a b Hfile Hr Hb Hres Henc) as (st' & Hrun & Hfiles).
  rewrite Hw in Hfiles. eauto.
Qed.

Lemma process_image_ignores_write_status_witness :
  exists st',
    process_image unit_gauss unit_pil read_only always_ok "a.jpg"
      None "Motion" example_settings [] media_state
    = (Return (Some "a.jpg"), st')
    /\ files st' = files media_state.
Proof.
  apply (process_image_ignores_write_status unit_gauss unit_pil read_only always_ok
           "a.jpg" None "Motion" example_settings media_state
           grey_frame [[(150, 150, 150)%Z]]).
  - reflexivity.
  - repeat constructor.
  - exact I.
  - reflexivity.
  - reflexivity.
  - reflexivity.
Defined.



(** ** [process_video] *)

Section ProcessVideo.

Variable gauss_px : ndarray -> Z -> Q -> nat -> nat -> pixel.
Variable pil_px : ndarray -> Q -> nat -> nat -> pixel.
Variable writable : string -> bool.

(** What a call of [process_video] can change. *)
Lemma process_video_effects (path : string) (roi : option roi_t)
    (mode : string) (cs : gmap string pyval) (start_time : Q)
    (end_time : option Q) (st : state) :
  exists r st' lg,
    process_video gauss_px pil_px writable path roi mode cs start_time end_time [] st
    = (Return r, st')
    /\ heap st' = heap st
    /\ logs st' = logs st ++ lg
    /\ (r = None /\ files st' = files st
        \/ r = Some (output_directory +:+ basename path))
    /\ forall q, q <> output_directory +:+ basename path ->
         files st' !! q = files st !! q.
Proof.
  unfold process_video, handle_exceptions, process_video_body, VideoFileClip,
    write_videofile. run.
  assert (Hnone : forall lg0,
             exists (r : option string) st' lg,
               (Return (@None string), State (heap st) (logs st ++ lg0) (files st))
               = (Return r, st')
               /\ heap st' = heap st
               /\ logs st' = logs st ++ lg
               /\ (r = None /\ files st' = files st
                   \/ r = Some (output_directory +:+ basename path))
               /\ forall q, q <> output_directory +:+ basename path ->
                    files st' !! q = files st !! q).
  { intros lg0. eexists _, _, lg0. split; [reflexivity |]. simpl.
    repeat split. by left. }
  destruct (files st !! path) as [[| c |]|]; simpl;
    rewrite <- ?app_assoc; try apply Hnone.
  destruct (window_clip _ _ _ _) as [bc|e]; simpl;
    rewrite <- ?app_assoc; try apply Hnone.
  destruct (audio c) as [au|]; simpl;
    [destruct (truthy_time _); simpl;
       [destruct (audio_subclip _ _ _) as [au'|e]; simpl;
          rewrite <- ?app_assoc; try apply Hnone |] |];
    destruct (writable _ && _); simpl;
    eexists _, _, _; rewrite <- !app_assoc;
    (split; [reflexivity |]); simpl;
    (split; [done |]); (split; [done |]); (split; [by right |]);
    intros q Hq; by rewrite ?lookup_insert_ne.
Qed.

(** No video at the path. *)
Lemma process_video_missing_run (path : string) (roi : option roi_t)
    (mode : string) (cs : gmap string pyval) (start_time : Q)
    (end_time : option Q) (st : state) :
  (forall c, files st !! path <> Some (VideoFile c)) ->
  exists lg,
    process_video gauss_px pil_px writable path roi mode cs start_time end_time [] st
    = (Return None, State (heap st) (logs st ++ lg) (files st)).
Proof.
  intros Hno.
  unfold process_video, handle_exceptions, process_video_body, VideoFileClip. run.
  destruct (files st !! path) as [[| c |]|]; simpl;
    try (by destruct (Hno c));
    rewrite <- !app_assoc; eexists; reflexivity.
Qed.

(** The window could not be cut or filtered. *)
Lemma process_video_no_window_run (path : string) (roi : option roi_t)
    (mode : string) (cs : gmap string pyval) (start_time : Q)
    (end_time : option Q) (st : state) (c : clip ndarray) (e : exn) :
  files st !! path = Some (VideoFile c) ->
  window_clip (blur_region gauss_px pil_px roi mode cs) c start_time
    (default (duration c) end_time) = Raise e ->
  exists lg,
    process_video gauss_px pil_px writable path roi mode cs start_time end_time [] st
    = (Return None, State (heap st) (logs st ++ lg) (files st)).
Proof.
  intros Hfile Hwin.
  unfold process_video, handle_exceptions, process_video_body, VideoFileClip. run.
  rewrite Hfile. simpl.
  replace (match end_time with Some e0 => e0 | None => duration c end)
    with (default (duration c) end_time) by (by destruct end_time).
  rewrite Hwin. simpl. rewrite <- !app_assoc. eexists. reflexivity.
Qed.

End ProcessVideo.


(** X11.  When the path holds no video, [process_video] returns [None] and
    leaves the arrays and the files as they are. *)
Theorem process_video_missing_file
    (gauss_px : ndarray -> Z -> Q -> nat -> nat -> pixel)
    (pil_px : ndarray -> Q -> nat -> nat -> pixel)
    (writable : string -> bool)
    (path : string) (roi : option roi_t) (mode : string)
    (cs : gmap string pyval) (start_time : Q) (end_time : option Q)
    (st : state) :
  (forall c, files st !! path <> Some (VideoFile c)) ->
  exists st',
    process_video gauss_px pil_px writable path roi mode cs start_time end_time [] st
    = (Return None, st')
    /\ heap st' = heap st /\ files st' = files st.
Proof.
  intros Hno.
  destruct (process_video_missing_run gauss_px pil_px writable path roi mode cs
              start_time end_time st Hno) as [lg ->].
  eauto.
Qed.

Lemma process_video_missing_file_witness :
  exists st',
    process_video unit_gauss unit_pil always_ok "a.jpg" None "Heavy"
      example_settings 0%Q None [] media_state
    = (Return None, st')
    /\ heap st' = heap media_state /\ files st' = files media_state.
Proof.
  apply (process_video_missing_file unit_gauss unit_pil always_ok "a.jpg" None
           "Heavy" example_settings 0%Q None media_state).
  intros c. discriminate.
Defined.

(** X12.  A window that starts after the end of the clip is rejected when
    the window is cut: [process_video] returns [None] and writes nothing. *)
Theorem process_video_start_after_end
    (gauss_px : ndarray -> Z -> Q -> nat -> nat -> pixel)
    (pil_px : ndarray -> Q -> nat -> nat -> pixel)
    (writable : string -> bool)
    (path : string) (roi : option roi_t) (mode : string)
    (cs : gmap string pyval) (start_time : Q) (end_time : option Q)
    (st : state) (c : clip ndarray) :
  files st !! path = Some (VideoFile c) ->
  (0 <= duration c)%Q ->
  (duration c < start_time)%Q ->
  exists st',
    process_video gauss_px pil_px writable path roi mode cs start_time end_time [] st
    = (Return None, st')
    /\ heap st' = heap st /\ files st' = files st.
Proof.
  intros Hfile Hd Hs.
  assert (Hwin : exists e,
             window_clip (blur_region gauss_px pil_px roi mode cs) c start_time
               (default (duration c) end_time) = Raise e).
  { unfold window_clip.
    assert (Qeq_bool start_time 0 = false) as ->.
    { apply not_true_is_false. intros E. apply Qeq_bool_iff in E. lra. }
    simpl. unfold subclip, subclip_window.
    rewrite (Qlt_bool_false start_time 0) by lra.
    assert (Qlt_bool (duration c) start_time = true) as ->.
    { unfold Qlt_bool. apply negb_true_iff, not_true_is_false.
      intros E. apply Qle_bool_iff in E. lra. }
    eauto. }
  destruct Hwin as [e Hwin].
  destruct (process_video_no_window_run gauss_px pil_px writable path roi mode cs
              start_time end_time st c e Hfile Hwin) as [lg ->].
  eauto.
Qed.

Lemma process_video_start_after_end_witness :
  exists st',
    process_video unit_gauss unit_pil always_ok "v.mp4" None "Heavy"
      example_settings 3%Q (Some 4%Q) [] media_state
    = (Return None, st')
    /\ heap st' = heap media_state /\ files st' = files media_state.
Proof.
  apply (process_video_start_after_end unit_gauss unit_pil always_ok "v.mp4" None
           "Heavy" example_settings 3%Q (Some 4%Q) media_state counting_clip).
  - reflexivity.
  - discriminate.
  - reflexivity.
Defined.

Lemma basename_from_slash (acc dir name : string) :
  basename_from acc (dir +:+ "/" +:+ name) = basename_from "" name.
Proof.
  change ("/" +:+ name) with (String "/"%char name).
  revert acc. induction dir as [|ch dir IH]; intros acc; simpl; [done |].
  destruct (Ascii.eqb ch "/"%char); apply IH.
Qed.




(** ** The batch, continued *)

Section BatchMore.

Variable gauss_px : ndarray -> Z -> Q -> nat -> nat -> pixel.
Variable pil_px : ndarray -> Q -> nat -> nat -> pixel.
Variable writable : string -> bool.
Variable has_encoder : string -> bool.

(** The paths collected all come from tasks that returned one. *)
Lemma collect_paths (Q : string -> Prop) (futures : list (M (option string))) :
  Forall (fun f => forall st, exists r st',
            f st = (Return r, st')
            /\ (r = None \/ exists s, r = Some s /\ Q s)) futures ->
  forall (acc : list string) (st : state),
    Forall Q acc ->
    exists out st', collect futures acc st = (Return out, st') /\ Forall Q out.
Proof.
  induction 1 as [|f futures Hf _ IH]; intros acc st Hacc.
  - exists acc, st. by split.
  - destruct (Hf st) as (r & st1 & Hrun & Hr).
    simpl. run. rewrite Hrun. apply IH.
    destruct Hr as [-> | (s & -> & Hs)]; simpl; [done |].
    destruct (negb _); [| done].
    apply Forall_app. split; [done |]. by constructor.
Qed.

(** Tasks that only log leave the arrays and the files alone, and nothing
    is collected from them. *)
Lemma collect_nothing (futures : list (M (option string))) :
  Forall (fun f => forall st, exists lg,
            f st = (Return None, State (heap st) (logs st ++ lg) (files st)))
    futures ->
  forall (acc : list string) (st : state),
    exists lg, collect futures acc st
               = (Return acc, State (heap st) (logs st ++ lg) (files st)).
Proof.
  induction 1 as [|f futures Hf _ IH]; intros acc st.
  - exists []. simpl. by rewrite state_eta.
  - destruct (Hf st) as [lg1 Hrun].
    simpl. run. rewrite Hrun. simpl.
    destruct (IH acc (State (heap st) (logs st ++ lg1) (files st))) as [lg2 ->].
    simpl. rewrite <- app_assoc. eauto.
Qed.

Lemma submit_image_only_logs (roi : option roi_t) (mode : string)
    (cs : gmap string pyval) (start_time : Q) (end_time : option Q)
    (path : string) (st : state) :
  is_image_path path = true ->
  exists lg,
    submit gauss_px pil_px writable has_encoder roi mode cs start_time end_time
      path st
    = (Return None, State (heap st) (logs st ++ lg) (files st)).
Proof.
  intros Himg. unfold submit. rewrite Himg.
  unfold process_image, handle_exceptions. run.
  rewrite <- !app_assoc. eexists. reflexivity.
Qed.

End BatchMore.

(** X15.  Every path a batch returns is the output path of one of its
    video items: "output/" followed by the base name of an input path that
    does not end in .jpg, .jpeg or .png.  No image path is ever returned. *)
Theorem batch_returns_only_video_outputs
    (gauss_px : ndarray -> Z -> Q -> nat -> nat -> pixel)
    (pil_px : ndarray -> Q -> nat -> nat -> pixel)
    (writable has_encoder : string -> bool)
    (as_completed : forall A : Type, list A -> list A)
    (media_paths : list string) (roi : option roi_t) (mode : string)
    (cs : gmap string pyval) (start_time : Q) (end_time : option Q)
    (st : state) :
  (forall (A : Type) (l : list A), as_completed A l ≡ₚ l) ->
  exists output_paths st',
    process_media_in_parallel gauss_px pil_px writable has_encoder as_completed
      media_paths roi mode cs start_time end_time st
    = (Return output_paths, st')
    /\ Forall (fun p => exists q, q ∈ media_paths
                                  /\ is_image_path q = false
                                  /\ p = output_directory +:+ basename q)
         output_paths.
Proof.
  intros Hperm.
  set (Q := fun p : string => exists q, q ∈ media_paths
                               /\ is_image_path q = false
                               /\ p = output_directory +:+ basename q).
  set (futures := submit gauss_px pil_px writable has_encoder roi mode cs
                    start_time end_time <$> media_paths).
  assert (Hgood : Forall (fun f => forall st, exists r st',
                    f st = (Return r, st')
                    /\ (r = None \/ exists s, r = Some s /\ Q s))
                    (as_completed _ futures)).
  { apply Forall_forall. intros f Hin. rewrite (Hperm _ futures) in Hin.
    apply list_elem_of_fmap in Hin as (path & -> & Hpath).
    intros st0. unfold submit.
    destruct (is_image_path path) eqn:Himg.
    - destruct (submit_image_only_logs gauss_px pil_px writable has_encoder roi
                  mode cs start_time end_time path st0 Himg) as [lg Hrun].
      unfold submit in Hrun. rewrite Himg in Hrun. rewrite Hrun. eauto.
    - destruct (process_video_effects gauss_px pil_px writable path roi mode cs
                  start_time end_time st0)
        as (r & st1 & lg & Hrun & _ & _ & Hr & _).
      rewrite Hrun. exists r, st1. split; [done |].
      destruct Hr as [[-> _] | ->]; [by left | right].
      eexists. split; [done |]. exists path. by repeat split. }
  destruct (collect_paths Q _ Hgood []
              (State (heap st) (logs st ++ [(INFO, "Starting parallel media processing")])
                 (files st)) (Forall_nil_2 _))
    as (out & st1 & Hc & Hout).
  exists out. eexists. split; [| exact Hout].
  unfold process_media_in_parallel. run. fold futures. rewrite Hc. simpl.
  reflexivity.
Qed.

Lemma batch_returns_only_video_outputs_witness :
  exists output_paths,
    fst (process_media_in_parallel unit_gauss unit_pil always_ok always_ok
           in_reverse_order ["a.jpg"; "v.mp4"] None "Motion" example_settings
           0%Q None media_state)
    = Return output_paths
    /\ Forall (fun p => exists q, q ∈ ["a.jpg"; "v.mp4"]
                                  /\ is_image_path q = false
                                  /\ p = output_directory +:+ basename q)
         output_paths.
Proof.
  destruct (batch_returns_only_video_outputs unit_gauss unit_pil always_ok
              always_ok in_reverse_order ["a.jpg"; "v.mp4"] None "Motion"
              example_settings 0%Q None media_state)
    as (out & st' & Hrun & Hout).
  - intros A l. unfold in_reverse_order. apply reverse_Permutation.
  - exists out. rewrite Hrun. by split.
Defined.

(** A batch of image paths only logs. *)
Lemma batch_of_images_run
    (gauss_px : ndarray -> Z -> Q -> nat -> nat -> pixel)
    (pil_px : ndarray -> Q -> nat -> nat -> pixel)
    (writable has_encoder : string -> bool)
    (as_completed : forall A : Type, list A -> list A)
    (media_paths : list string) (roi : option roi_t) (mode : string)
    (cs : gmap string pyval) (start_time : Q) (end_time : option Q)
    (st : state) :
  (forall (A : Type) (l : list A), as_completed A l ≡ₚ l) ->
  Forall (fun q => is_image_path q = true) media_paths ->
  exists st',
    process_media_in_parallel gauss_px pil_px writable has_encoder as_completed
      media_paths roi mode cs start_time end_time st
    = (Return [], st')
    /\ heap st' = heap st /\ files st' = files st.
Proof.
  intros Hperm Himgs.
  set (futures := submit gauss_px pil_px writable has_encoder roi mode cs
                    start_time end_time <$> media_paths).
  assert (Hgood : Forall (fun f => forall st, exists lg,
                    f st = (Return None, State (heap st) (logs st ++ lg) (files st)))
                    (as_completed _ futures)).
  { apply Forall_forall. intros f Hin. rewrite (Hperm _ futures) in Hin.
    apply list_elem_of_fmap in Hin as (path & -> & Hpath).
    intros st0. apply submit_image_only_logs.
    rewrite Forall_forall in Himgs. by apply Himgs. }
  destruct (collect_nothing _ Hgood []
              (State (heap st) (logs st ++ [(INFO, "Starting parallel media processing")])
                 (files st)))
    as [lg Hc].
  eexists. split.
  - unfold process_media_in_parallel. run. fold futures. rewrite Hc. simpl.
    reflexivity.
  - by simpl.
Qed.

(** X16.  A batch of image paths only returns an empty list and leaves
    every file and every array as it was: through the batch no image is
    decoded, blurred or overwritten. *)
Theorem batch_of_images_changes_nothing
    (gauss_px : ndarray -> Z -> Q -> nat -> nat -> pixel)
    (pil_px : ndarray -> Q -> nat -> nat -> pixel)
    (writable has_encoder : string -> bool)
    (as_completed : forall A : Type, list A -> list A)
    (media_paths : list string) (roi : option roi_t) (mode : string)
    (cs : gmap string pyval) (start_time : Q) (end_time : option Q)
    (st : state) :
  (forall (A : Type) (l : list A), as_completed A l ≡ₚ l) ->
  Forall (fun q => is_image_path q = true) media_paths ->
  exists st',
    process_media_in_parallel gauss_px pil_px writable has_encoder as_completed
      media_paths roi mode cs start_time end_time st
    = (Return [], st')
    /\ heap st' = heap st /\ files st' = files st.
Proof. apply batch_of_images_run. Qed.

Lemma batch_of_images_changes_nothing_witness :
  exists st',
    process_media_in_parallel unit_gauss unit_pil always_ok always_ok
      in_reverse_order ["a.jpg"; "B.PNG"] None "Heavy" example_settings
      0%Q None media_state
    = (Return [], st')
    /\ heap st' = heap media_state /\ files st' = files media_state.
Proof.
  apply (batch_of_images_changes_nothing unit_gauss unit_pil always_ok always_ok
           in_reverse_order ["a.jpg"; "B.PNG"] None "Heavy" example_settings
           0%Q None media_state).
  - intros A l. unfold in_reverse_order. apply reverse_Permutation.
  - repeat constructor.
Defined.

(** ** [save_processed_images] *)

Section SavingProperties.

Variable writable : string -> bool.
Variable isdir : string -> bool.
Variable output_dir : string.

Local Abbreviation dest := (save_destination output_dir).

Lemma save_pairs_step (p : string) (n : option string)
    (rest : list (string * option string)) (st : state) (f : file) :
  files st !! p = Some f ->
  isdir (dest (p, n)) = false ->
  writable (dest (p, n)) = true ->
  dest (p, n) <> p ->
  save_pairs writable isdir ((p, n) :: rest) output_dir st
  = save_pairs writable isdir rest output_dir
      (State (heap st)
         (logs st ++ [(INFO, "Saved processed file to: " +:+ dest (p, n))])
         (<[dest (p, n) := f]> (files st))).
Proof.
  intros Hf Hdir Hw Hne. unfold save_destination in *. simpl in *.
  unfold shutil_copy. run. rewrite Hf. simpl.
  rewrite Hdir. rewrite Hf.
  destruct (String.eqb_spec p
              (path_join output_dir (format_name n +:+ (splitext p).2)))
    as [Heq | _]; [by destruct Hne |].
  rewrite Hw. reflexivity.
Qed.

Lemma save_pairs_copies (pairs : list (string * option string)) :
  forall st : state,
    Forall (fun pn => is_Some (files st !! fst pn)
                      /\ isdir (dest pn) = false
                      /\ writable (dest pn) = true) pairs ->
    (forall pn pn', pn ∈ pairs -> pn' ∈ pairs -> dest pn <> fst pn') ->
    NoDup (dest <$> pairs) ->
    exists st',
      save_pairs writable isdir pairs output_dir st = (Return tt, st')
      /\ heap st' = heap st
      /\ (forall q, q ∉ (dest <$> pairs) -> files st' !! q = files st !! q)
      /\ (forall pn, pn ∈ pairs -> files st' !! dest pn = files st !! fst pn).
Proof.
  induction pairs as [|[p n] rest IH]; intros st Hall Hsrc Hnd.
  - exists st. simpl. repeat split; try done. intros pn Hin. by apply elem_of_nil in Hin.
  - apply Forall_cons in Hall as [([f Hf] & Hdir & Hw) Hall].
    apply NoDup_cons in Hnd as [Hfresh Hnd]. fold (fmap dest rest) in *.
    assert (Hne : forall pn', pn' ∈ (p, n) :: rest -> dest (p, n) <> fst pn').
    { intros pn' Hin. apply Hsrc; [by left | done]. }
    rewrite (save_pairs_step p n rest st f Hf Hdir Hw (Hne (p, n) ltac:(by left))).
    set (st1 := State _ _ _).
    destruct (IH st1) as (st' & Hrun & Hheap & Hother & Hcopied).
    { eapply Forall_impl; [exact Hall |]. intros pn (Hs & ? & ?).
      repeat split; try done. simpl.
      destruct (decide (dest (p, n) = fst pn)) as [Heq|Hneq].
      - rewrite Heq, lookup_insert_eq. eauto.
      - by rewrite lookup_insert_ne. }
    { intros pn pn' Hin Hin'. apply Hsrc; by right. }
    { done. }
    exists st'. split; [done |]. split; [done |]. split.
    + intros q Hq. apply not_elem_of_cons in Hq as [Hq1 Hq2].
      rewrite (Hother q Hq2). simpl. by rewrite lookup_insert_ne.
    + intros pn Hin. apply elem_of_cons in Hin as [-> | Hin].
      * rewrite (Hother _ Hfresh). simpl. by rewrite lookup_insert_eq.
      * rewrite (Hcopied pn Hin). simpl.
        rewrite lookup_insert_ne; [done |]. apply Hne. by right.
Qed.

Lemma save_pairs_app (l1 l2 : list (string * option string)) (st st1 : state) :
  save_pairs writable isdir l1 output_dir st = (Return tt, st1) ->
  save_pairs writable isdir (l1 ++ l2) output_dir st
  = save_pairs writable isdir l2 output_dir st1.
Proof.
  revert st. induction l1 as [|[p n] l1 IH]; intros st; simpl.
  - by intros [= ->].
  - run. destruct (bool_decide _); simpl.
    + destruct (shutil_copy _ _ _ _ _) as [[d|e] st2]; simpl; [| discriminate].
      apply IH.
    + discriminate.
Qed.

Lemma save_pairs_missing (p : string) (n : option string)
    (rest : list (string * option string)) (st : state) :
  files st !! p = None ->
  save_pairs writable isdir ((p, n) :: rest) output_dir st
  = (Raise (AttributeError "'str' object has no attribute '__array_interface__'"), st).
Proof. intros Hnone. simpl. run. by rewrite Hnone. Qed.

End SavingProperties.



(** X18.  [save_processed_images] has no handler: at the first processed
    path that is not a file it raises, the pairs before it have been
    saved, and the pairs after it are not looked at. *)
Theorem save_processed_images_stops_at_missing_file
    (writable isdir : string -> bool) (output_dir : string)
    (before after : list string) (names_before names_after : list (option string))
    (p : string) (n : option string) (st st1 : state) :
  length before = length names_before ->
  save_processed_images writable isdir before names_before output_dir st
  = (Return tt, st1) ->
  files st1 !! p = None ->
  exists e,
    save_processed_images writable isdir (before ++ p :: after)
      (names_before ++ n :: names_after) output_dir st
    = (Raise e, st1).
Proof.
  intros Hlen Hrun Hnone. unfold save_processed_images in *.
  rewrite zip_with_app by done. simpl.
  rewrite (save_pairs_app writable isdir output_dir _ _ st st1 Hrun).
  rewrite save_pairs_missing by done. eauto.
Qed.

Lemma save_processed_images_stops_at_missing_file_witness :
  exists e st1,
    save_processed_images always_ok read_only ["v.mp4"; "gone.mp4"; "a.jpg"]
      [Some "clip"; Some "lost"; Some "still"] "saved" media_state
    = (Raise e, st1)
    /\ files st1 !! "saved/clip.mp4" = files media_state !! "v.mp4"
    /\ files st1 !! "saved/still.jpg" = None.
Proof.
  destruct (save_processed_images_stops_at_missing_file always_ok read_only "saved"
              ["v.mp4"] ["a.jpg"] [Some "clip"] [Some "still"] "gone.mp4"
              (Some "lost") media_state
              (snd (save_processed_images always_ok read_only ["v.mp4"]
                      [Some "clip"] "saved" media_state)))
    as [e Hrun].
  - reflexivity.
  - reflexivity.
  - reflexivity.
  - exists e. eexists. split; [exact Hrun |]. split; reflexivity.
Defined.

(** ** [gui.py]: the region drawn with the mouse *)

(** X19.  The region stored after a drag is the press point with the
    signed distances to the release point.  It passes the bounds check of
    [apply_blur] for a frame exactly when the drag runs to the right and
    downwards and both points lie within the frame: a drag to the left or
    upwards, or a click without a drag, never gives a usable region. *)
Theorem drag_region_valid_iff (a0 : app) (press release : Z * Z) (frame : ndarray) :
  exists a1,
    on_button_release (on_button_press a0 press) release = Return a1
    /\ app_roi a1
       = Some (fst press, snd press,
               fst release - fst press, snd release - snd press)%Z
    /\ (in_bounds frame (app_roi a1)
        <-> (0 <= fst press < fst release /\ fst release <= shape1 frame
             /\ 0 <= snd press < snd release /\ snd release <= shape0 frame)%Z).
Proof.
  destruct press as [px py], release as [rx ry].
  eexists. split; [reflexivity |]. split; [reflexivity |].
  cbn [app_roi set_roi in_bounds fst snd].
  rewrite out_of_bounds_false. lia.
Qed.

(** X20.  After a drag that does not run to the right and downwards,
    blurring with the stored region changes nothing: [apply_blur] returns
    the frame it was given, unmodified, in every mode. *)
Theorem backward_drag_blurs_nothing
    (gauss_px : ndarray -> Z -> Q -> nat -> nat -> pixel)
    (pil_px : ndarray -> Q -> nat -> nat -> pixel)
    (a0 a1 : app) (press release : Z * Z)
    (st : state) (im : loc) (frame : ndarray) (mode : string) :
  heap st !! im = Some frame ->
  (fst release <= fst press \/ snd release <= snd press)%Z ->
  on_button_release (on_button_press a0 press) release = Return a1 ->
  exists st',
    apply_blur gauss_px pil_px (Some im) (app_roi a1) mode
      (app_custom_blur_settings a1) st
    = (Return (Some im), st')
    /\ heap st' = heap st /\ files st' = files st.
Proof.
  intros Ha Hback Hrel.
  destruct press as [px py], release as [rx ry]. simpl in *.
  injection Hrel as <-. simpl.
  eexists. split.
  - apply (apply_blur_out_of_bounds _ _ st im frame); [done |].
    apply out_of_bounds_true. lia.
  - by simpl.
Qed.

Lemma backward_drag_blurs_nothing_witness :
  exists st',
    apply_blur unit_gauss unit_pil (Some 0%nat) (Some (2, 1, -2, -1)%Z) "Heavy"
      (app_custom_blur_settings initial_app) small_state
    = (Return (Some 0%nat), st')
    /\ heap st' = heap small_state /\ files st' = files small_state.
Proof.
  apply (backward_drag_blurs_nothing unit_gauss unit_pil initial_app
           (set_roi (set_start initial_app (Some (2, 1)%Z))
              (Some (2, 1, -2, -1)%Z))
           (2, 1)%Z (0, 0)%Z small_state 0%nat small_frame "Heavy").
  - reflexivity.
  - left. simpl. lia.
  - reflexivity.
Defined.

(** ** [gui.py]: saving the settings *)

(** X21.  After a save in which every entry parses, the settings hold what
    was entered under "sigma", "direction" and "angle", an odd kernel size
    under "ksize" (the entered one, or the next integer when it was even),
    and every other key as before. *)
Theorem saved_settings_read_back
    (k : Z) (sg : Q) (d : string) (an : Z) (old : gmap string pyval) :
  exists cs k',
    save_custom_blur_settings (Some k) (Some sg) d (Some an) old = (Return tt, cs)
    /\ cs !! "ksize" = Some (PInt k')
    /\ Z.odd k' = true /\ (k <= k' <= k + 1)%Z
    /\ cs !! "sigma" = Some (PFloat sg)
    /\ cs !! "direction" = Some (PStr d)
    /\ cs !! "angle" = Some (PInt an)
    /\ forall key, key ∉ ["ksize"; "sigma"; "direction"; "angle"] ->
         cs !! key = old !! key.
Proof.
  unfold save_custom_blur_settings.
  exists (<["angle" := PInt an]> (<["direction" := PStr d]> (<["sigma" := PFloat sg]>
            (if (k mod 2 =? 0)%Z
             then <["ksize" := PInt (k + 1)]> (<["ksize" := PInt k]> old)
             else <["ksize" := PInt k]> old)))),
         (if (k mod 2 =? 0)%Z then k + 1 else k)%Z.
  split; [reflexivity |].
  rewrite !lookup_insert_eq.
  rewrite !(lookup_insert_ne _ "angle"), !lookup_insert_eq by done.
  rewrite !(lookup_insert_ne _ "direction"), !lookup_insert_eq by done.
  assert (Hpar : (k mod 2 = 0 \/ k mod 2 = 1)%Z)
    by (pose proof (Z.mod_pos_bound k 2); lia).
  destruct (k mod 2 =? 0)%Z eqn:E.
  - apply Z.eqb_eq in E.
    rewrite !(lookup_insert_ne _ "sigma"), lookup_insert_eq by done.
    repeat split; try lia.
    + rewrite Z.odd_add, <- Z.negb_even. rewrite Zmod_even in E.
      by destruct (Z.even k).
    + intros key Hkey. rewrite !not_elem_of_cons in Hkey.
      destruct Hkey as (? & ? & ? & ? & _).
      by rewrite !lookup_insert_ne by done.
  - apply Z.eqb_neq in E.
    rewrite !(lookup_insert_ne _ "sigma"), lookup_insert_eq by done.
    repeat split; try lia.
    + rewrite <- Z.negb_even. rewrite Zmod_even in E.
      by destruct (Z.even k).
    + intros key Hkey. rewrite !not_elem_of_cons in Hkey.
      destruct Hkey as (? & ? & ? & ? & _).
      by rewrite !lookup_insert_ne by done.
Qed.

(** X22.  The settings are updated entry by entry and nothing is undone:
    when the sigma entry does not parse, the save raises with the new
    (odd) kernel size already in place, while sigma, direction, angle and
    every other key are as before. *)
Theorem rejected_sigma_keeps_new_ksize
    (k : Z) (d : string) (angle_entry : option Z) (old : gmap string pyval) :
  exists e cs k',
    save_custom_blur_settings (Some k) None d angle_entry old = (Raise e, cs)
    /\ cs !! "ksize" = Some (PInt k')
    /\ Z.odd k' = true /\ (k <= k' <= k + 1)%Z
    /\ forall key, key <> "ksize" -> cs !! key = old !! key.
Proof.
  unfold save_custom_blur_settings.
  assert (Hpar : (k mod 2 = 0 \/ k mod 2 = 1)%Z)
    by (pose proof (Z.mod_pos_bound k 2); lia).
  destruct (k mod 2 =? 0)%Z eqn:E.
  - apply Z.eqb_eq in E. eexists _, _, (k + 1)%Z. split; [reflexivity |].
    rewrite lookup_insert_eq. repeat split; try lia.
    + rewrite Z.odd_add, <- Z.negb_even. rewrite Zmod_even in E.
      by destruct (Z.even k).
    + intros key Hkey. by rewrite !lookup_insert_ne by done.
  - apply Z.eqb_neq in E. eexists _, _, k. split; [reflexivity |].
    rewrite lookup_insert_eq. repeat split; try lia.
    + rewrite <- Z.negb_even. rewrite Zmod_even in E.
      by destruct (Z.even k).
    + intros key Hkey. by rewrite !lookup_insert_ne by done.
Qed.

(** ** [gui.py]: running the batch *)

(** X23.  When every loaded file is an image, [process_media] ends with
    the warning "Processing Incomplete": the list of processed paths stays
    as it was, and no file and no array is changed. *)
Theorem process_media_images_only
    (gauss_px : ndarray -> Z -> Q -> nat -> nat -> pixel)
    (pil_px : ndarray -> Q -> nat -> nat -> pixel)
    (writable has_encoder : string -> bool)
    (as_completed : forall A : Type, list A -> list A)
    (a : app) (st : state) :
  (forall (A : Type) (l : list A), as_completed A l ≡ₚ l) ->
  Forall (fun q => is_image_path q = true) (app_tmp_media_paths a) ->
  exists st',
    process_media gauss_px pil_px writable has_encoder as_completed a st
    = (Return (a, [logging_warning "No media files were processed.";
                   showwarning "Processing Incomplete"]), st')
    /\ heap st' = heap st /\ files st' = files st.
Proof.
  intros Hperm Himgs. unfold process_media.
  destruct (batch_of_images_run gauss_px pil_px writable has_encoder as_completed
              (app_tmp_media_paths a) (app_roi a) (app_blur_mode a)
              (app_custom_blur_settings a)
              (if negb (app_video_blur_full a) then app_start_time a else 0%Q)
              (if negb (app_video_blur_full a) then Some (app_end_time a) else None)
              st Hperm Himgs) as (st' & -> & Hheap & Hfiles).
  eauto.
Qed.

Lemma process_media_images_only_witness :
  exists st',
    process_media unit_gauss unit_pil always_ok always_ok in_reverse_order
      (App ["pics/a.jpg"] ["a.jpg"] "" (Some (0, 0, 1, 1)%Z) "Heavy"
         example_settings true 0%Q 0%Q None None)
      media_state
    = (Return (App ["pics/a.jpg"] ["a.jpg"] "" (Some (0, 0, 1, 1)%Z) "Heavy"
                 example_settings true 0%Q 0%Q None None,
               [logging_warning "No media files were processed.";
                showwarning "Processing Incomplete"]), st')
    /\ heap st' = heap media_state /\ files st' = files media_state.
Proof.
  apply (process_media_images_only unit_gauss unit_pil always_ok always_ok
           in_reverse_order
           (App ["pics/a.jpg"] ["a.jpg"] "" (Some (0, 0, 1, 1)%Z) "Heavy"
              example_settings true 0%Q 0%Q None None)
           media_state).
  - intros A l. unfold in_reverse_order. apply reverse_Permutation.
  - repeat constructor.
Defined.

(** ** [TestRun.py]: the stand-alone [apply_blur] *)

Section TestRunProperties.

Variable gauss_px : ndarray -> Z -> Q -> nat -> nat -> pixel.

Lemma slice_bound_inside (i len : Z) :
  (0 <= i <= len)%Z -> TestRun.slice_bound i len = i.
Proof.
  intros. unfold TestRun.slice_bound.
  replace (i <? 0)%Z with false by (symmetry; apply Z.ltb_ge; lia). lia.
Qed.

(** A slice that reaches past the end is the slice up to the end. *)
Lemma py_slice_clamped {A} (lo n : Z) (l : list A) :
  (0 <= lo <= Z.of_nat (length l))%Z -> (0 <= n)%Z ->
  TestRun.py_slice lo (lo + n) l
  = slice lo (lo + Z.min n (Z.of_nat (length l) - lo)) l.
Proof.
  intros Hlo Hn. unfold TestRun.py_slice, slice, TestRun.slice_bound.
  replace (lo <? 0)%Z with false by (symmetry; apply Z.ltb_ge; lia).
  replace (lo + n <? 0)%Z with false by (symmetry; apply Z.ltb_ge; lia).
  f_equal; [| f_equal]; lia.
Qed.

Lemma py_crop_clamped (a : ndarray) (x y w h : Z) :
  rectangular a ->
  (0 <= x <= shape1 a)%Z -> (0 <= y <= shape0 a)%Z ->
  (0 <= w)%Z -> (0 <= h)%Z ->
  TestRun.py_crop a x y w h
  = crop a x y (Z.min w (shape1 a - x)) (Z.min h (shape0 a - y)).
Proof.
  intros Hr Hx Hy Hw Hh. unfold TestRun.py_crop, crop.
  rewrite (py_slice_clamped y h a) by (unfold shape0 in *; lia).
  fold (shape0 a).
  apply Forall_fmap_ext. unfold slice at 1.
  apply Forall_take, Forall_drop.
  eapply Forall_impl; [exact Hr |]. intros row Hrow. simpl in Hrow |- *.
  rewrite py_slice_clamped by lia. by rewrite Hrow.
Qed.

Lemma testrun_apply_blur_run (st : state) (im : loc) (a : ndarray)
    (x y w h : Z) (mode : string) (cs : gmap string pyval) :
  heap st !! im = Some a ->
  TestRun.apply_blur gauss_px (Some im) (x, y, w, h) mode cs st
  = match GaussianBlur gauss_px (TestRun.py_crop a x y w h) 51 0 with
    | Return b =>
        if same_shape (TestRun.py_crop a x y w h) b
        then (Return (Some (length (heap st))),
              State (<[length (heap st) :=
                         paste a (TestRun.slice_bound x (shape1 a))
                           (TestRun.slice_bound y (shape0 a)) b]>
                       (heap st ++ [a]))
                (logs st) (files st))
        else (Raise (ValueError "could not broadcast input array"),
              State (heap st ++ [a]) (logs st) (files st))
    | Raise e => (Raise e, State (heap st ++ [a]) (logs st) (files st))
    end.
Proof.
  intros Ha. unfold TestRun.apply_blur, TestRun.py_setitem. run.
  rewrite Ha. simpl.
  destruct (GaussianBlur _ _ _ _) as [b|e]; simpl; [| done].
  by destruct (same_shape _ _).
Qed.

End TestRunProperties.

(** X24.  The [apply_blur] of [TestRun.py] never changes an array that
    exists: whether it returns or raises, every array of the store, the
    input included, is as before, and so are the files and the log.  A
    frame it returns is a new array. *)
Theorem testrun_apply_blur_keeps_input
    (gauss_px : ndarray -> Z -> Q -> nat -> nat -> pixel)
    (image : option loc) (roi : roi_t) (mode : string)
    (cs : gmap string pyval) (st : state) :
  exists o st',
    TestRun.apply_blur gauss_px image roi mode cs st = (o, st')
    /\ files st' = files st /\ logs st' = logs st
    /\ (forall j, (j < length (heap st))%nat -> heap st' !! j = heap st !! j)
    /\ (forall out, o = Return (Some out) ->
          out = length (heap st) /\ is_Some (heap st' !! out)).
Proof.
  destruct image as [im|]; [| by eexists _, _; repeat split].
  destruct (heap st !! im) as [a|] eqn:Ha.
  2: { unfold TestRun.apply_blur. run. rewrite Ha. simpl.
       eexists _, _. by repeat split. }
  destruct roi as [[[x y] w] h].
  rewrite (testrun_apply_blur_run gauss_px st im a x y w h mode cs Ha).
  destruct (GaussianBlur _ _ _ _) as [b|e]; [destruct (same_shape _ _) |];
    eexists _, _; (split; [reflexivity |]); simpl;
    (split; [done |]); (split; [done |]); split;
    try (intros j Hj; by apply lookup_app_l);
    try (intros out Hout; discriminate).
  - intros j Hj. rewrite list_lookup_insert_ne by lia. by apply lookup_app_l.
  - intros out [= <-]. split; [done |].
    rewrite list_lookup_insert_eq by (rewrite length_app; simpl; lia). eauto.
Qed.

(** X25.  For a region inside the frame the two [apply_blur] agree on the
    pixels: the frame [TestRun.py] returns is the frame [FlexiBlur.py]
    returns in Heavy mode.  The difference is where it lives: the one is a
    new array beside the untouched input, the other is the input itself,
    overwritten. *)
Theorem testrun_agrees_with_heavy
    (gauss_px : ndarray -> Z -> Q -> nat -> nat -> pixel)
    (pil_px : ndarray -> Q -> nat -> nat -> pixel)
    (st : state) (im : loc) (a : ndarray) (r : roi_t) (cs : gmap string pyval) :
  heap st !! im = Some a ->
  rectangular a ->
  roi_out_of_bounds a r = false ->
  exists out st1 st2 res,
    TestRun.apply_blur gauss_px (Some im) r "Heavy" cs st = (Return (Some out), st1)
    /\ apply_blur gauss_px pil_px (Some im) (Some r) "Heavy" cs st
       = (Return (Some im), st2)
    /\ heap st1 !! out = Some res
    /\ heap st2 !! im = Some res
    /\ out <> im
    /\ heap st1 !! im = Some a.
Proof.
  intros Ha Hr Hb. destruct r as [[[x y] w] h].
  pose proof Hb as Hb'. apply out_of_bounds_false in Hb'.
  assert (Him : (im < length (heap st))%nat) by (by eapply lookup_lt_Some).
  assert (Hcrop : TestRun.py_crop a x y w h = crop a x y w h).
  { rewrite py_crop_clamped by (done || lia). f_equal; lia. }
  assert (Hne : is_empty (crop a x y w h) = false).
  { apply (region_not_empty a (Some (x, y, w, h)) Hr Hb).
    unfold is_empty. apply orb_false_iff. split; apply Z.eqb_neq; lia. }
  set (b := tabulate (length (crop a x y w h)) (width_of (crop a x y w h))
              (gauss_px (crop a x y w h) 51%Z 0%Q)).
  assert (Hg : GaussianBlur gauss_px (crop a x y w h) 51%Z 0%Q = Return b).
  { unfold GaussianBlur. by rewrite Hne. }
  assert (Hres : blur_result gauss_px pil_px "Heavy" cs
                   (region_of a (Some (x, y, w, h))) = Return (Some b)).
  { unfold blur_result, blur_by_mode. simpl. run. by rewrite Hg. }
  destruct (apply_blur_success gauss_px pil_px st im a b (Some (x, y, w, h))
              "Heavy" cs Ha Hr Hb Hres) as [lg Hrun].
  pose proof (blur_result_lengths gauss_px pil_px "Heavy" cs _ b
                (region_lengths a (Some (x, y, w, h)) Hr Hb) Hres) as Hshape.
  rewrite (testrun_apply_blur_run gauss_px st im a x y w h "Heavy" cs Ha), Hcrop, Hg.
  unfold same_shape. simpl in Hshape. rewrite bool_decide_eq_true_2 by done.
  rewrite !slice_bound_inside by lia.
  eexists _, _, _, (paste a x y b).
  split; [reflexivity |]. split; [exact Hrun |]. simpl.
  split; [by rewrite list_lookup_insert_eq by (rewrite length_app; simpl; lia) |].
  split; [by rewrite list_lookup_insert_eq |].
  split; [lia |].
  rewrite list_lookup_insert_ne by lia. by apply lookup_app_l_Some.
Qed.

Lemma testrun_agrees_with_heavy_witness :
  exists out st1 st2 res,
    TestRun.apply_blur unit_gauss (Some 0%nat) (1, 0, 2, 2)%Z "Heavy" ∅ small_state
    = (Return (Some out), st1)
    /\ apply_blur unit_gauss unit_pil (Some 0%nat) (Some (1, 0, 2, 2)%Z) "Heavy"
         ∅ small_state
       = (Return (Some 0%nat), st2)
    /\ heap st1 !! out = Some res
    /\ heap st2 !! 0%nat = Some res
    /\ out <> 0%nat
    /\ heap st1 !! 0%nat = Some small_frame.
Proof.
  apply (testrun_agrees_with_heavy unit_gauss unit_pil small_state 0%nat
           small_frame (1, 0, 2, 2)%Z ∅).
  - reflexivity.
  - repeat constructor.
  - reflexivity.
Defined.

(** X26.  [TestRun.py] does not check the region against the frame: a
    region that starts inside the frame and reaches past its right or
    lower edge is cut at the edge, and the call behaves as with the part of
    the region that lies inside the frame. *)
Theorem testrun_clips_region
    (gauss_px : ndarray -> Z -> Q -> nat -> nat -> pixel)
    (st : state) (im : loc) (a : ndarray) (x y w h : Z)
    (mode : string) (cs : gmap string pyval) :
  heap st !! im = Some a ->
  rectangular a ->
  (0 <= x <= shape1 a)%Z -> (0 <= y <= shape0 a)%Z ->
  (0 <= w)%Z -> (0 <= h)%Z ->
  TestRun.apply_blur gauss_px (Some im) (x, y, w, h) mode cs st
  = TestRun.apply_blur gauss_px (Some im)
      (x, y, Z.min w (shape1 a - x), Z.min h (shape0 a - y))%Z mode cs st.
Proof.
  intros Ha Hr Hx Hy Hw Hh.
  rewrite !(testrun_apply_blur_run gauss_px st im a) by done.
  rewrite !py_crop_clamped by (done || lia).
  by replace (Z.min (Z.min w (shape1 a - x)) (shape1 a - x))
       with (Z.min w (shape1 a - x)) by lia;
     replace (Z.min (Z.min h (shape0 a - y)) (shape0 a - y))
       with (Z.min h (shape0 a - y)) by lia.
Qed.

Lemma testrun_clips_region_witness :
  TestRun.apply_blur unit_gauss (Some 0%nat) (1, 1, 200, 200)%Z "Heavy" ∅
    small_state
  = TestRun.apply_blur unit_gauss (Some 0%nat) (1, 1, 2, 1)%Z "Heavy" ∅
      small_state.
Proof.
  apply (testrun_clips_region unit_gauss small_state 0%nat small_frame 1 1 200 200
           "Heavy" ∅).
  - reflexivity.
  - repeat constructor.
  - unfold shape1, small_frame. simpl length. lia.
  - unfold shape0, small_frame. simpl length. lia.
  - lia.
  - lia.
Defined.

(** X27.  A frame with at most 50 rows or at most 50 columns does not
    reach the fixed region (50, 50, 200, 200) of [blur_region] in
    [TestRun.py]: the crop is empty, the Gaussian filter rejects it, and
    since nothing catches the exception it leaves [blur_region].  The frame
    passed in is not modified. *)
Theorem testrun_blur_region_small_frame
    (gauss_px : ndarray -> Z -> Q -> nat -> nat -> pixel)
    (st : state) (im : loc) (a : ndarray) :
  heap st !! im = Some a ->
  rectangular a ->
  (shape0 a <= 50 \/ shape1 a <= 50)%Z ->
  exists e st',
    TestRun.blur_region gauss_px (Some im) st = (Raise e, st')
    /\ heap st' !! im = Some a.
Proof.
  intros Ha Hr Hsmall. unfold TestRun.blur_region.
  rewrite (testrun_apply_blur_run gauss_px st im a 50 50 200 200 "Heavy" ∅ Ha).
  assert (Hempty : is_empty (TestRun.py_crop a 50 50 200 200) = true).
  { unfold is_empty. apply orb_true_iff.
    unfold TestRun.py_crop.
    destruct (decide (shape0 a <= 50)%Z) as [H0|H0].
    - left. apply Z.eqb_eq. unfold shape0 in *. rewrite length_fmap.
      unfold TestRun.py_slice, TestRun.slice_bound. simpl.
      rewrite length_take, length_drop. lia.
    - right. apply Z.eqb_eq. assert (H1 : (shape1 a <= 50)%Z) by lia.
      rewrite (py_slice_clamped 50 200 a) by (unfold shape0 in *; lia).
      unfold shape1 at 1.
      destruct (_ <$> slice _ _ a) as [|row rows] eqn:E; [done |].
      assert (Hin : row ∈ (fun row : list pixel => TestRun.py_slice 50 (50 + 200) row)
                            <$> slice 50 (50 + Z.min 200 (Z.of_nat (length a) - 50)) a)
        by (rewrite E; by left).
      apply list_elem_of_fmap in Hin as (src & -> & Hsrc).
      assert (Hlen : Z.of_nat (length src) = shape1 a).
      { unfold rectangular in Hr. rewrite Forall_forall in Hr. apply Hr.
        unfold slice in Hsrc.
        by apply subseteq_take, subseteq_drop in Hsrc. }
      unfold TestRun.py_slice, TestRun.slice_bound. simpl.
      rewrite length_take, length_drop. lia. }
  unfold GaussianBlur. rewrite Hempty.
  eexists _, _. split; [reflexivity |]. simpl. by apply lookup_app_l_Some.
Qed.

Lemma testrun_blur_region_small_frame_witness :
  exists e st',
    TestRun.blur_region unit_gauss (Some 0%nat) small_state = (Raise e, st')
    /\ heap st' !! 0%nat = Some small_frame.
Proof.
  apply (testrun_blur_region_small_frame unit_gauss small_state 0%nat small_frame).
  - reflexivity.
  - repeat constructor.
  - left. unfold shape0, small_frame. simpl length. lia.
Defined.

(** ** What a batch can write *)

Lemma collect_frame (P : string -> Prop) (futures : list (M (option string))) :
  Forall (fun f => forall st, exists r st',
            f st = (Return r, st')
            /\ heap st' = heap st
            /\ forall q, P q -> files st' !! q = files st !! q) futures ->
  forall (acc : list string) (st : state),
    exists out st',
      collect futures acc st = (Return out, st')
      /\ heap st' = heap st
      /\ forall q, P q -> files st' !! q = files st !! q.
Proof.
  induction 1 as [|f futures Hf _ IH]; intros acc st.
  - exists acc, st. by repeat split.
  - destruct (Hf st) as (r & st1 & Hrun & Hheap & Hfiles).
    simpl. run. rewrite Hrun.
    destruct (IH (if truthy r then acc ++ [default "" r] else acc) st1)
      as (out & st' & -> & Hheap' & Hfiles').
    exists out, st'. split; [done |]. split; [congruence |].
    intros q Hq. rewrite Hfiles' by done. by apply Hfiles.
Qed.


